(** * SemanticKittiDumper: a shallow embedding of
    [src/semantic_kitti/semantic_kitti_dumper.py]

    The dumper is a Python object whose methods mutate its fields, raise
    exceptions and issue calls to the operating system.  It is embedded as a
    state-and-exception monad over a record of the object's fields that also
    collects, in order, the I/O calls a method issues.

    - Python [float] and numpy [float64] are IEEE-754 binary64 numbers; they
      are embedded as [spec_float] with the operations of [SpecFloat] at
      precision 53 and maximal exponent 1024.  Python [int] is [Z].
    - The calls submitted to the thread pool are run one after the other, in
      an order that is a parameter of the capture of a frame; an exception
      ends its own call only.  A call waits on [on_data_ready] before it
      reads a sample: the samples of a capture cycle are given as a [World].
    - The outcome of an I/O call is not part of the embedding (no call fails
      at the operating system), and the logger is left out.
    - The code of [packages.carla1s] and of the base class [DatasetDumper] is
      not part of the dumper's file; what the dumper uses of them is the
      interface [Collaborators] and the fields of [Dumper]. *)

From Stdlib Require Import ZArith Bool Lia Ascii String.
From Stdlib Require Import Floats.SpecFloat.
From stdpp Require Import base option list strings pretty gmap.

Local Open Scope string_scope.
Local Open Scope Z_scope.
Local Open Scope list_scope.

(** ** Python results and exceptions *)

Inductive Exception :=
| ValueError (msg : string)
| TypeError (msg : string)
| KeyError (key : string)
| IndexError (msg : string)
| AttributeError (msg : string)
| OverflowError (msg : string).

Inductive Result (A : Type) :=
| Ok (a : A)
| Raise (e : Exception).
Arguments Ok {A} a.
Arguments Raise {A} e.

(** ** Strings and paths ([str], [os.path] of a POSIX host) *)

Module Path.

(** [s.rfind(c)]: the highest index of [c] in [s], or [-1]. *)
Fixpoint rfind_from (c : ascii) (s : string) (i last : Z) : Z :=
  match s with
  | EmptyString => last
  | String a s' => rfind_from c s' (i + 1) (if Ascii.eqb a c then i else last)
  end.

Definition rfind (c : ascii) (s : string) : Z := rfind_from c s 0 (-1).

(** [c in s] *)
Fixpoint contains (c : ascii) (s : string) : bool :=
  match s with
  | EmptyString => false
  | String a s' => Ascii.eqb a c || contains c s'
  end.

(** [p[:i]] and [p[i:]] for [0 <= i]. *)
Definition slice_to (p : string) (i : Z) : string :=
  String.substring 0 (Z.to_nat i) p.
Definition slice_from (p : string) (i : Z) : string :=
  String.substring (Z.to_nat i) (String.length p - Z.to_nat i)%nat p.

(** The loop of [genericpath._splitext] that skips the leading dots of the
    file name: it answers [true] as soon as a character that is not a dot
    stands before [dotIndex]. *)
Fixpoint scan_leading_dots (p : string) (filenameIndex : Z) (steps : nat) : bool :=
  match steps with
  | O => false
  | S k =>
      match String.get (Z.to_nat filenameIndex) p with
      | Some a =>
          if Ascii.eqb a "." then scan_leading_dots p (filenameIndex + 1) k
          else true
      | None => true
      end
  end.

(** [os.path.splitext(p)] ([posixpath]: sep ['/'], no altsep, extsep ['.']). *)
Definition splitext (p : string) : string * string :=
  let sepIndex := rfind "/" p in
  let dotIndex := rfind "." p in
  if (sepIndex <? dotIndex)
     && scan_leading_dots p (sepIndex + 1) (Z.to_nat (dotIndex - (sepIndex + 1)))
  then (slice_to p dotIndex, slice_from p dotIndex)
  else (p, "").

Definition startswith_sep (b : string) : bool :=
  match b with
  | String a _ => Ascii.eqb a "/"
  | EmptyString => false
  end.

Fixpoint endswith_sep (a : string) : bool :=
  match a with
  | EmptyString => false
  | String c EmptyString => Ascii.eqb c "/"
  | String _ s => endswith_sep s
  end.

(** One round of the loop of [posixpath.join]. *)
Definition join_step (path b : string) : string :=
  if startswith_sep b then b
  else if (String.eqb path "") || endswith_sep path then path +:+ b
  else path +:+ "/" +:+ b.

(** [os.path.join(a, *p)]. *)
Definition join (a : string) (p : list string) : string :=
  fold_left join_step p a.

End Path.

(** [os.path.splitext(path)[1] == ''], the test every path decision of the
    dumper is made with. *)
Definition no_extension (path : string) : bool :=
  String.eqb (snd (Path.splitext path)) "".

(** The line terminator the text files are written with. *)
Definition newline : string := String (ascii_of_nat 10) EmptyString.

(** Digits padded with zeros on the left up to [width] characters. *)
Fixpoint zeros (n : nat) : string :=
  match n with
  | O => ""
  | S k => String "0" (zeros k)
  end.

Definition zfill (width : nat) (digits : string) : string :=
  zeros (width - String.length digits) +:+ digits.

(** ** Floating point ([float], [numpy.float64]) *)

Module Float.

Definition float := spec_float.

Definition prec : Z := 53.
Definition emax : Z := 1024.

Definition add : float -> float -> float := SFadd prec emax.
Definition sub : float -> float -> float := SFsub prec emax.
Definition mul : float -> float -> float := SFmul prec emax.
Definition div : float -> float -> float := SFdiv prec emax.
Definition neg : float -> float := SFopp.

Definition zero : float := S754_zero false.


(** An integer that is exactly a float: small literals such as [2.0],
    [360.0]. *)
Definition lit (z : Z) : float := binary_normalize prec emax z 0 false.

(** The conversion CPython applies to an [int] operand of a float
    operation: correctly rounded, [OverflowError] beyond the float range. *)
Definition of_int (z : Z) : Result float :=
  match binary_normalize prec emax z 0 false with
  | S754_infinity _ => Raise (OverflowError "int too large to convert to float")
  | x => Ok x
  end.

(** [math.pi], [numpy.pi]: 0x400921FB54442D18. *)
Definition pi : float := S754_finite false 7074237752028440 (-51).

(** *** [format(x, '.{p}e')]

    CPython prints the decimal expansion of the exact binary value, correctly
    rounded (ties to even) to [p] digits after the point. *)

Definition ndigits (n : Z) : Z := Z.of_nat (String.length (pretty n)).

(** The fraction [n/d] times [10^s]. *)
Definition scale10 (n d s : Z) : Z * Z :=
  if 0 <=? s then (n * 10 ^ s, d) else (n, d * 10 ^ (- s)).

(** For [0 <= n], [0 < d]: [n/d] rounded to an integer, ties to even. *)
Definition div_half_even (n d : Z) : Z :=
  let q := n / d in
  match 2 * (n mod d) ?= d with
  | Lt => q
  | Gt => q + 1
  | Eq => if Z.even q then q else q + 1
  end.

(** For [0 < n], [0 < d]: the [k] with [10^k <= n/d < 10^(k+1)]. *)
Definition decimal_exponent (n d : Z) : Z :=
  let k := ndigits n - ndigits d in
  let '(n', d') := scale10 n d (- k) in
  if d' <=? n' then k else k - 1.

(** The [p+1] significant digits, as an integer, and the decimal exponent. *)
Definition sci (p n d : Z) : Z * Z :=
  let k := decimal_exponent n d in
  let '(n', d') := scale10 n d (p - k) in
  let q := div_half_even n' d' in
  if 10 ^ (p + 1) <=? q then (q / 10, k + 1) else (q, k).

Definition mantissa_string (p q : Z) : string :=
  match zfill (Z.to_nat (p + 1)) (pretty q) with
  | String c EmptyString => String c EmptyString
  | String c rest => String c ("." +:+ rest)
  | EmptyString => EmptyString
  end.

Definition exponent_string (k : Z) : string :=
  (if k <? 0 then "e-" else "e+")
    +:+ (if Z.abs k <? 10 then "0" else "") +:+ pretty (Z.abs k).

Definition sign_string (s : bool) : string := if s then "-" else "".

Definition format_e (p : Z) (x : float) : string :=
  match x with
  | S754_nan => "nan"
  | S754_infinity s => sign_string s +:+ "inf"
  | S754_zero s =>
      sign_string s +:+ mantissa_string p 0 +:+ exponent_string 0
  | S754_finite s m e =>
      let '(n, d) := if 0 <=? e then (Z.pos m * 2 ^ e, 1) else (Z.pos m, 2 ^ (- e)) in
      let '(q, k) := sci p n d in
      sign_string s +:+ mantissa_string p q +:+ exponent_string k
  end.

End Float.

Abbreviation float := Float.float.

(** ** Sensors, samples and transforms (the collaborators' data) *)

(** A sensor actor; [==] on actors is decided on this handle. *)
Definition Sensor := nat.

(** A numpy array of floats with two axes, row-major. *)
Definition ndarray := list (list float).

(** [Transform.matrix]: a 4x4 homogeneous matrix. *)
Record Vec4 := vec4 { c0 : float; c1 : float; c2 : float; c3 : float }.
Record Mat4 := mat4 { r0 : Vec4; r1 : Vec4; r2 : Vec4; r3 : Vec4 }.

Definition Vec4_to_list (v : Vec4) : list float := [c0 v; c1 v; c2 v; c3 v].

Record Point := point { px : float; py : float; pz : float }.

(** Modelled from the spec: one row of a semantic lidar sample, "point array
    with positions + per-point semantic id + per-point instance id"; the
    sample type itself lives in the sensor package. *)
Record LidarRow := lidar_row {
  row_x : float; row_y : float; row_z : float;
  row_seg : Z;
  row_oid : Z
}.

(** [data.content]: the image of a camera or the point array of a semantic
    lidar. *)
Inductive Content :=
| ImageBuffer (pixels : list (list Z))
| PointArray (rows : list LidarRow).

(** [sensor.data]: the sample a sensor holds once [on_data_ready] is set. *)
Record SensorData := sensor_data {
  timestamp : float;
  frame : Z;
  transform : Mat4;
  content : Content
}.

(** [sensor.attributes] of a camera, after the [int(...)] and [float(...)]
    conversions of [_dump_calib]. *)
Record Attributes := attributes_of {
  image_size_x : Z;
  image_size_y : Z;
  fov : float
}.

(** What the simulator shows during one capture cycle. *)
Record World := world {
  data : Sensor -> SensorData;
  attributes : Sensor -> option Attributes
}.

(** The two orientation maps of [CoordConverter] the dumper names. *)
Inductive Orientation :=
| CARLA_CAM_TO_KITTI_CAM_ORIENTATION
| LEFT_HANDED_TO_RIGHT_HANDED_ORIENTATION.

(** The operations the dumper calls in [packages.carla1s.tf], numpy and the
    Python runtime; their code is not part of the dumper, so every
    definition below takes them as an interface.  They are functions of
    their arguments: a [Coordinate] that would update the transform of the
    sample in place is outside this interface. *)
Class Collaborators := {
  (** [Coordinate(Transform(m)).change_orientation(o).data.matrix] *)
  change_orientation : Orientation -> Mat4 -> Mat4;
  (** [coordinate.apply_transform(Transform(matrix=ref)).data.matrix], on the
      matrix the coordinate holds *)
  apply_transform : Mat4 -> Mat4 -> Mat4;
  (** [CoordConverter.from_system] on the points, then [get_list()] *)
  from_system : list Point -> list Point;
  (** [numpy.tan] *)
  np_tan : float -> float;
  (** [list(set(xs))]: the iteration order of the set built from [xs] *)
  set_to_list : list Sensor -> list Sensor
}.

(** ** Binds and tasks *)

Inductive Bind :=
| SemanticLidarBind (sensor : Sensor) (path labels : string)
| TimestampBind (sensor : Sensor) (path : string)
| PoseBind (sensor : Sensor) (path : string)
| CameraBind (sensor : Sensor) (path : string)
| CalibTrBind (sensor : Sensor) (path : string).

Definition actor (b : Bind) : Sensor :=
  match b with
  | SemanticLidarBind s _ _ | TimestampBind s _ | PoseBind s _
  | CameraBind s _ | CalibTrBind s _ => s
  end.

Definition data_path (b : Bind) : string :=
  match b with
  | SemanticLidarBind _ p _ | TimestampBind _ p | PoseBind _ p
  | CameraBind _ p | CalibTrBind _ p => p
  end.

(** [isinstance(bind, self.X)]; no bind class derives from another one. *)
Definition is_TimestampBind (b : Bind) : bool :=
  match b with TimestampBind _ _ => true | _ => false end.
Definition is_PoseBind (b : Bind) : bool :=
  match b with PoseBind _ _ => true | _ => false end.
Definition is_CameraBind (b : Bind) : bool :=
  match b with CameraBind _ _ => true | _ => false end.
Definition is_CalibTrBind (b : Bind) : bool :=
  match b with CalibTrBind _ _ => true | _ => false end.

(** A call handed to [thread_pool.submit]. *)
Inductive Task :=
| dump_semantic_lidar_task (b : Bind)
| dump_image_task (b : Bind)
| dump_timestamp_task (b : Bind)
| dump_pose_task (b : Bind)
| dump_calib_task (bind_calib bind_pose : Bind).

(** A call to the operating system or to an I/O library. *)
Inductive IOCall :=
| os_makedirs (path : string)
(** [with open(path, mode) as f: f.write(...)], with all the text written
    before the file is closed *)
| open_write (path : string) (mode : string) (text : string)
| cv2_imwrite (path : string) (img : Content)
| tofile_float32 (path : string) (rows : ndarray)
| tofile_uint16 (path : string) (rows : list (list Z)).

(** ** The dumper object *)

(** The fields the methods read and write.  [binds] (the list behind both
    [self.binds] and [self._binds]), [current_sequence_path],
    [_current_frame_count] and [_promises] are declared by the base class
    [DatasetDumper]; the three origins by [SemanticKittiDumper.__init__]. *)
Record Dumper := dumper {
  binds : list Bind;
  current_sequence_path : string;
  _current_frame_count : Z;
  _promises : list Task;
  _timestamp_offset : option float;
  _pose_offset : option Mat4;
  _pose_offset_coordinate : option Mat4
}.

(** [SemanticKittiDumper(root_path)] once [create_sequence] has fixed the
    sequence folder and reset the frame counter. *)
Definition new_dumper (sequence_path : string) : Dumper :=
  {| binds := []; current_sequence_path := sequence_path;
     _current_frame_count := 0; _promises := [];
     _timestamp_offset := None; _pose_offset := None;
     _pose_offset_coordinate := None |}.

Definition set_binds (v : list Bind) (d : Dumper) : Dumper :=
  {| binds := v; current_sequence_path := current_sequence_path d;
     _current_frame_count := _current_frame_count d; _promises := _promises d;
     _timestamp_offset := _timestamp_offset d; _pose_offset := _pose_offset d;
     _pose_offset_coordinate := _pose_offset_coordinate d |}.
Definition set_current_frame_count (v : Z) (d : Dumper) : Dumper :=
  {| binds := binds d; current_sequence_path := current_sequence_path d;
     _current_frame_count := v; _promises := _promises d;
     _timestamp_offset := _timestamp_offset d; _pose_offset := _pose_offset d;
     _pose_offset_coordinate := _pose_offset_coordinate d |}.
Definition set_promises (v : list Task) (d : Dumper) : Dumper :=
  {| binds := binds d; current_sequence_path := current_sequence_path d;
     _current_frame_count := _current_frame_count d; _promises := v;
     _timestamp_offset := _timestamp_offset d; _pose_offset := _pose_offset d;
     _pose_offset_coordinate := _pose_offset_coordinate d |}.
Definition set_timestamp_offset (v : option float) (d : Dumper) : Dumper :=
  {| binds := binds d; current_sequence_path := current_sequence_path d;
     _current_frame_count := _current_frame_count d; _promises := _promises d;
     _timestamp_offset := v; _pose_offset := _pose_offset d;
     _pose_offset_coordinate := _pose_offset_coordinate d |}.
Definition set_pose_offset (v : option Mat4) (d : Dumper) : Dumper :=
  {| binds := binds d; current_sequence_path := current_sequence_path d;
     _current_frame_count := _current_frame_count d; _promises := _promises d;
     _timestamp_offset := _timestamp_offset d; _pose_offset := v;
     _pose_offset_coordinate := _pose_offset_coordinate d |}.
Definition set_pose_offset_coordinate (v : option Mat4) (d : Dumper) : Dumper :=
  {| binds := binds d; current_sequence_path := current_sequence_path d;
     _current_frame_count := _current_frame_count d; _promises := _promises d;
     _timestamp_offset := _timestamp_offset d; _pose_offset := _pose_offset d;
     _pose_offset_coordinate := v |}.

(** ** The method monad: state, exceptions, and the I/O calls issued *)

Definition M (A : Type) : Type := Dumper -> Result A * Dumper * list IOCall.

Definition ret {A} (a : A) : M A := fun d => (Ok a, d, []).

Definition bind {A B} (m : M A) (k : A -> M B) : M B :=
  fun d =>
    let '(r, d1, io1) := m d in
    match r with
    | Ok a => let '(r2, d2, io2) := k a d1 in (r2, d2, io1 ++ io2)
    | Raise e => (Raise e, d1, io1)
    end.

Definition raise {A} (e : Exception) : M A := fun d => (Raise e, d, []).
Definition get : M Dumper := fun d => (Ok d, d, []).
Definition modify (f : Dumper -> Dumper) : M unit := fun d => (Ok tt, f d, []).
Definition io (c : IOCall) : M unit := fun d => (Ok tt, d, [c]).
Definition lift {A} (r : Result A) : M A := fun d => (r, d, []).

Declare Scope method_scope.
Delimit Scope method_scope with method.
Notation "x <- m ;; k" := (bind m (fun x => k))
  (at level 100, m at next level, right associativity) : method_scope.
Notation "m ;; k" := (bind m (fun _ => k))
  (at level 100, right associativity) : method_scope.
Local Open Scope method_scope.

(** [for x in xs: body(x)] *)
Fixpoint for_each {A} (xs : list A) (body : A -> M unit) : M unit :=
  match xs with
  | [] => ret tt
  | x :: rest => body x ;; for_each rest body
  end.

Definition when (c : bool) (m : M unit) : M unit := if c then m else ret tt.

(** The outcome, final state and I/O calls of a method run. *)
Definition outcome {A} (x : Result A * Dumper * list IOCall) : Result A := fst (fst x).
Definition state_of {A} (x : Result A * Dumper * list IOCall) : Dumper := snd (fst x).
Definition calls_of {A} (x : Result A * Dumper * list IOCall) : list IOCall := snd x.

(** ** Registration and set-up methods *)

(** [f"Path {file_path} is a folder, not a file."] *)
Definition folder_not_file (file_path : string) : Exception :=
  ValueError ("Path " +:+ file_path +:+ " is a folder, not a file.").

(** [self.binds.append(b)]; [self.binds] is the list [self._binds] that
    [bind_camera] appends to. *)
Definition binds_append (b : Bind) : M unit :=
  modify (fun d => set_binds (binds d ++ [b]) d).

Definition bind_camera (sensor : Sensor) (data_folder : string) : M unit :=
  binds_append (CameraBind sensor data_folder).

Definition bind_semantic_lidar (sensor : Sensor) (data_folder labels_folder : string)
  : M unit :=
  binds_append (SemanticLidarBind sensor data_folder labels_folder).

Definition bind_timestamp (sensor : Sensor) (file_path : string) : M unit :=
  if no_extension file_path then raise (folder_not_file file_path)
  else binds_append (TimestampBind sensor file_path).

Definition bind_pose (sensor : Sensor) (file_path : string) : M unit :=
  if no_extension file_path then raise (folder_not_file file_path)
  else binds_append (PoseBind sensor file_path).

Definition bind_calib (tr_sensor : Sensor) (file_path : string) : M unit :=
  if no_extension file_path then raise (folder_not_file file_path)
  else binds_append (CalibTrBind tr_sensor file_path).

(** The body of the loop of [_setup_content_folder]. *)
Definition setup_content (b : Bind) : M unit :=
  d <- get ;;
  (if no_extension (data_path b)
   then io (os_makedirs (Path.join (current_sequence_path d) [data_path b]))
   else io (open_write (Path.join (current_sequence_path d) [data_path b]) "w" "")) ;;
  match b with
  | SemanticLidarBind _ _ labels_path =>
      io (os_makedirs (Path.join (current_sequence_path d) [labels_path]))
  | _ => ret tt
  end.

Definition _setup_content_folder : M unit :=
  d <- get ;;
  for_each (binds d) setup_content.

(** [submit] appends the future of the call to [self._promises]. *)
Definition submit (t : Task) : M unit :=
  modify (fun d => set_promises (_promises d ++ [t]) d).

(** [next((b for b in self.binds if isinstance(b, X)), None)] *)
Definition next_bind (is_X : Bind -> bool) (bs : list Bind) : option Bind :=
  List.find is_X bs.

Definition calib_not_found : Exception :=
  ValueError "Calib bind or pose bind not found".

Definition _setup_calib_file : M unit :=
  d <- get ;;
  match next_bind is_CalibTrBind (binds d), next_bind is_PoseBind (binds d) with
  | Some calib_bind, Some pose_bind => submit (dump_calib_task calib_bind pose_bind)
  | _, _ => raise calib_not_found
  end.

(** The body of the loop of [create_frame]. *)
Definition submit_dump (b : Bind) : M unit :=
  match b with
  | SemanticLidarBind _ _ _ => submit (dump_semantic_lidar_task b)
  | CameraBind _ _ => submit (dump_image_task b)
  | TimestampBind _ _ => submit (dump_timestamp_task b)
  | PoseBind _ _ => submit (dump_pose_task b)
  | CalibTrBind _ _ => ret tt
  end.

Definition create_frame : M unit :=
  modify (fun d => set_current_frame_count (_current_frame_count d + 1) d) ;;
  modify (set_promises []) ;;
  d <- get ;;
  when (_current_frame_count d =? 1)
    (modify (set_timestamp_offset None) ;;
     modify (set_pose_offset None) ;;
     _setup_calib_file) ;;
  d <- get ;;
  for_each (binds d) submit_dump.

(** The calls [create_frame] submits for the binds of the registry. *)
Definition bind_tasks (bs : list Bind) : list Task :=
  omap (fun b =>
          match b with
          | SemanticLidarBind _ _ _ => Some (dump_semantic_lidar_task b)
          | CameraBind _ _ => Some (dump_image_task b)
          | TimestampBind _ _ => Some (dump_timestamp_task b)
          | PoseBind _ _ => Some (dump_pose_task b)
          | CalibTrBind _ _ => None
          end) bs.

(** [f'{self._current_frame_count:06d}'] *)
Definition format_06d (n : Z) : string :=
  if n <? 0 then "-" +:+ zfill 5 (pretty (Z.abs n)) else zfill 6 (pretty n).

Definition current_frame_name (d : Dumper) : string :=
  format_06d (_current_frame_count d).

(** ** Label remapping *)

Definition MAPPING_SEG_CARLA_TO_KITTI : gmap Z Z :=
  list_to_map
    [ (1, 40); (2, 48); (3, 50); (4, 52); (5, 51); (6, 80); (7, 99); (8, 81);
      (9, 70); (10, 72); (11, 0); (12, 30); (13, 31); (14, 10); (15, 18);
      (16, 13); (17, 16); (18, 15); (19, 11); (20, 20); (21, 259); (22, 99);
      (23, 49); (24, 60); (25, 49); (26, 52); (27, 49); (28, 51); (29, 60);
      (30, 44) ].

(** What [dict.get] hands back: the value, or [None]. *)
Inductive PyObject :=
| PyInt (z : Z)
| PyNone.

(** [self.MAPPING_SEG_CARLA_TO_KITTI.get] *)
Definition mapping_get (key : Z) : PyObject :=
  match MAPPING_SEG_CARLA_TO_KITTI !! key with
  | Some v => PyInt v
  | None => PyNone
  end.

Arguments mapping_get : simpl never.
Arguments MAPPING_SEG_CARLA_TO_KITTI : simpl never.

(** A numpy array with one axis: of dtype [int64], or of dtype [object]. *)
Inductive Array1 :=
| Int64Array (xs : list Z)
| ObjectArray (xs : list PyObject).

Definition none_to_int : Exception :=
  TypeError "int() argument must be a string, a bytes-like object or a real number, not 'NoneType'".

(** [int(x)] on every element, as numpy does when it stores Python objects
    into an integer array. *)
Fixpoint objects_to_ints (xs : list PyObject) : Result (list Z) :=
  match xs with
  | [] => Ok []
  | PyNone :: _ => Raise none_to_int
  | PyInt z :: rest =>
      match objects_to_ints rest with
      | Ok zs => Ok (z :: zs)
      | Raise e => Raise e
      end
  end.

(** [np.vectorize(f)(seg)] with [otypes] unset: numpy calls [f] on the first
    element to choose the output dtype, calls [f] on every element into an
    object array, and converts that array to the chosen dtype. *)
Definition np_vectorize (f : Z -> PyObject) (seg : list Z) : Result Array1 :=
  match seg with
  | [] => Raise (ValueError "cannot call `vectorize` on size 0 inputs unless `otypes` is set")
  | first :: _ =>
      let outputs := map f seg in
      match f first with
      | PyInt _ =>
          match objects_to_ints outputs with
          | Ok zs => Ok (Int64Array zs)
          | Raise e => Raise e
          end
      | PyNone => Ok (ObjectArray outputs)
      end
  end.

(** The cast of an integer to [np.uint16]: the low 16 bits. *)
Definition to_uint16 (z : Z) : Z := z mod 2 ^ 16.

(** [a.astype(np.uint16)] *)
Definition astype_uint16 (a : Array1) : Result (list Z) :=
  match a with
  | Int64Array zs => Ok (map to_uint16 zs)
  | ObjectArray xs =>
      match objects_to_ints xs with
      | Ok zs => Ok (map to_uint16 zs)
      | Raise e => Raise e
      end
  end.

(** [np.column_stack((a, b))] of two arrays of one length. *)
Definition column_stack (a b : list Z) : list (list Z) :=
  zip_with (fun x y => [x; y]) a b.

(** The label rows of a sample: the remapped semantic id and the instance id
    of every point, both as [uint16] (lines 211 to 215). *)
Definition make_labels (rows : list LidarRow) : Result (list (list Z)) :=
  let seg := map row_seg rows in
  match np_vectorize mapping_get seg with
  | Raise e => Raise e
  | Ok seg' =>
      let oid := map row_oid rows in
      match astype_uint16 seg' with
      | Raise e => Raise e
      | Ok seg16 => Ok (column_stack seg16 (map to_uint16 oid))
      end
  end.

(** ** Float arrays *)

(** The rounding of a [float64] to [np.float32], kept as the binary64 value
    it denotes. *)
Definition to_float32 (x : float) : float :=
  match x with
  | S754_finite s m e => binary_round 24 128 s m e
  | _ => x
  end.

(** [np.identity(3)] *)
Definition np_identity3 : ndarray :=
  [[Float.lit 1; Float.lit 0; Float.lit 0];
   [Float.lit 0; Float.lit 1; Float.lit 0];
   [Float.lit 0; Float.lit 0; Float.lit 1]].

(** [A[i, j] = v] *)
Definition setitem (i j : nat) (v : float) (A : ndarray) : ndarray :=
  alter (fun row => <[j := v]> row) i A.

(** [A[i, j]] *)
Definition getitem (i j : nat) (A : ndarray) : option float :=
  row ← A !! i; row !! j.

(** [m[:3, :3]], [m[:3, -1].reshape(3, 1)] and [m[:3, :]] of a 4x4 matrix. *)
Definition rotation_of (m : Mat4) : ndarray :=
  [[c0 (r0 m); c1 (r0 m); c2 (r0 m)];
   [c0 (r1 m); c1 (r1 m); c2 (r1 m)];
   [c0 (r2 m); c1 (r2 m); c2 (r2 m)]].
Definition translation_of (m : Mat4) : ndarray :=
  [[c3 (r0 m)]; [c3 (r1 m)]; [c3 (r2 m)]].
Definition top_rows (m : Mat4) : ndarray :=
  [Vec4_to_list (r0 m); Vec4_to_list (r1 m); Vec4_to_list (r2 m)].

(** [np.hstack((R, t))] *)
Definition np_hstack (R t : ndarray) : ndarray := zip_with app R t.

(** [np.dot(A, B)]: every entry is the sum, from the left, of the products
    of a row of [A] with a column of [B]. *)
Definition dot_row (row : list float) (B : ndarray) (j : nat) : float :=
  match zip_with (fun a brow => Float.mul a (default Float.zero (brow !! j))) row B with
  | [] => Float.zero
  | p :: ps => fold_left Float.add ps p
  end.
Definition np_dot (A B : ndarray) : ndarray :=
  let n := match B with [] => O | brow :: _ => length brow end in
  map (fun row => map (dot_row row B) (seq 0 n)) A.

(** [' '.join([fmt(value) for row in A for value in row])] *)
Definition join_values (p : Z) (A : ndarray) : string :=
  String.concat " " (map (Float.format_e p) (concat A)).

(** ** The export tasks *)

Section Tasks.

Context `{Collaborators}.

(** The world of the running capture cycle: every task first waits on
    [bind.actor.on_data_ready] and then reads [bind.actor.data]. *)
Variable w : World.

Definition _dump_image (b : Bind) : M unit :=
  d <- get ;;
  let file_name := current_frame_name d +:+ ".png" in
  let path := Path.join (current_sequence_path d) [data_path b; file_name] in
  io (cv2_imwrite path (content (data w (actor b)))).

(** Lines 206 to 208: the point rows [(x, y, z, 1.0)] as [float32]. *)
Definition make_points (rows : list LidarRow) : ndarray :=
  let points := map (fun r => point (row_x r) (Float.neg (row_y r)) (row_z r)) rows in
  let points := from_system points in
  map (fun p => map to_float32 [px p; py p; pz p; Float.lit 1]) points.

Definition _dump_semantic_lidar (b : Bind) : M unit :=
  d <- get ;;
  let file_name := current_frame_name d in
  let path_data :=
    Path.join (current_sequence_path d) [data_path b; file_name +:+ ".bin"] in
  labels_path <- match b with
                 | SemanticLidarBind _ _ l => ret l
                 | _ => raise (AttributeError "labels_path")
                 end ;;
  let path_labels :=
    Path.join (current_sequence_path d) [labels_path; file_name +:+ ".label"] in
  match content (data w (actor b)) with
  | ImageBuffer _ => raise (IndexError "too many indices for array")
  | PointArray rows =>
      let points := make_points rows in
      labels <- lift (make_labels rows) ;;
      io (tofile_float32 path_data points) ;;
      io (tofile_uint16 path_labels labels)
  end.

Definition _dump_timestamp (b : Bind) : M unit :=
  d <- get ;;
  let now := timestamp (data w (actor b)) in
  offset <- match _timestamp_offset d with
            | None => modify (set_timestamp_offset (Some now)) ;; ret now
            | Some o => ret o
            end ;;
  let value := Float.sub now offset in
  io (open_write (Path.join (current_sequence_path d) [data_path b]) "a"
        (Float.format_e 6 value +:+ newline)).

Definition _dump_pose (b : Bind) : M unit :=
  d <- get ;;
  let path := Path.join (current_sequence_path d) [data_path b] in
  let pose := transform (data w (actor b)) in
  origin <- match _pose_offset d with
            | None =>
                let c := change_orientation CARLA_CAM_TO_KITTI_CAM_ORIENTATION pose in
                modify (set_pose_offset (Some pose)) ;;
                modify (set_pose_offset_coordinate (Some c)) ;;
                ret c
            | Some _ =>
                match _pose_offset_coordinate d with
                | Some c => ret c
                | None => raise (AttributeError "'NoneType' object has no attribute 'data'")
                end
            end ;;
  let cami_on_cam0 :=
    apply_transform (change_orientation CARLA_CAM_TO_KITTI_CAM_ORIENTATION pose) origin in
  let pose_matrix := join_values 6 (top_rows cami_on_cam0) in
  io (open_write path "a" (pose_matrix +:+ newline)).

(** [compute_intrinsic_matrix(w, h, fov)] of [_dump_calib]; [w] and [h] are
    Python ints, [fov] a float. *)
Definition compute_intrinsic_matrix (width height : Z) (fov : float) : Result ndarray :=
  match Float.of_int width, Float.of_int height with
  | Ok wf, Ok hf =>
      let focal :=
        Float.div wf
          (Float.mul (Float.lit 2)
             (np_tan (Float.div (Float.mul fov Float.pi) (Float.lit 360)))) in
      let K := np_identity3 in
      let K := setitem 0 0 focal K in
      let K := setitem 1 1 focal K in
      let K := setitem 0 2 (Float.div wf (Float.lit 2)) K in
      let K := setitem 1 2 (Float.div hf (Float.lit 2)) K in
      let K := setitem 2 2 (Float.lit 1) K in
      Ok K
  | Raise e, _ => Raise e
  | _, Raise e => Raise e
  end.

(** [compute_projection_matrix(K, R, t)] *)
Definition compute_projection_matrix (K R t : ndarray) : ndarray :=
  let RT := np_hstack R t in
  np_dot K RT.

(** The cameras of the calibration file, line 286 to 288. *)
Definition calib_cams (bs : list Bind) (cam_0 : Sensor) : list Sensor :=
  let other_cams :=
    set_to_list
      (map actor
         (List.filter (fun b => is_CameraBind b && negb (Nat.eqb (actor b) cam_0)) bs)) in
  cam_0 :: other_cams.

(** Lines 313 to 327: the projection matrix of one camera. *)
Definition camera_projection (cam0_on_cam0 : Mat4) (cam : Sensor) : Result ndarray :=
  match attributes w cam with
  | None => Raise (KeyError "image_size_x")
  | Some a =>
      match compute_intrinsic_matrix (image_size_x a) (image_size_y a) (fov a) with
      | Raise e => Raise e
      | Ok K =>
          let cam_on_cam0 :=
            apply_transform
              (change_orientation CARLA_CAM_TO_KITTI_CAM_ORIENTATION
                 (transform (data w cam)))
              cam0_on_cam0 in
          let R := rotation_of cam_on_cam0 in
          let t := translation_of cam_on_cam0 in
          Ok (compute_projection_matrix K R t)
      end
  end.

(** [f"P{idx}:"] followed by the twelve values and a line end. *)
Definition calib_line (key : string) (A : ndarray) : string :=
  (key +:+ ":") +:+ (join_values 12 A +:+ newline).

(** The body of the loop over the cameras. *)
Definition dump_calib_camera (path : string) (cam0_on_cam0 : Mat4)
    (idx : nat) (cam : Sensor) : M unit :=
  P <- lift (camera_projection cam0_on_cam0 cam) ;;
  io (open_write path "a" (calib_line ("P" +:+ pretty idx) P)).

(** [for idx, cam in enumerate(cams)] *)
Fixpoint for_enumerate (idx : nat) (cams : list Sensor)
    (body : nat -> Sensor -> M unit) : M unit :=
  match cams with
  | [] => ret tt
  | cam :: rest => body idx cam ;; for_enumerate (S idx) rest body
  end.

Definition _dump_calib (bind_calib bind_pose : Bind) : M unit :=
  d <- get ;;
  let target := actor bind_calib in
  let cam_0 := actor bind_pose in
  let cams := calib_cams (binds d) cam_0 in
  let path := Path.join (current_sequence_path d) [data_path bind_calib] in
  let cam0_on_cam0 :=
    change_orientation CARLA_CAM_TO_KITTI_CAM_ORIENTATION (transform (data w cam_0)) in
  for_enumerate 0 cams (dump_calib_camera path cam0_on_cam0) ;;
  let lidar_on_cam0 :=
    apply_transform
      (change_orientation LEFT_HANDED_TO_RIGHT_HANDED_ORIENTATION
         (transform (data w target)))
      cam0_on_cam0 in
  io (open_write path "a" (calib_line "Tr" (top_rows lidar_on_cam0))).

(** The call a future stands for. *)
Definition run_task (t : Task) : M unit :=
  match t with
  | dump_semantic_lidar_task b => _dump_semantic_lidar b
  | dump_image_task b => _dump_image b
  | dump_timestamp_task b => _dump_timestamp b
  | dump_pose_task b => _dump_pose b
  | dump_calib_task bind_calib bind_pose => _dump_calib bind_calib bind_pose
  end.

End Tasks.

(** ** The thread pool and the capture of frames *)

Definition is_timestamp_task (t : Task) : bool :=
  match t with dump_timestamp_task _ => true | _ => false end.
Definition is_calib_task (t : Task) : bool :=
  match t with dump_calib_task _ _ => true | _ => false end.

(** What a future holds once its call has ended: the call, the value or the
    exception it ended with, and the I/O calls it issued. *)
Definition Future : Type := Task * Result unit * list IOCall.

Definition future_task (f : Future) : Task := fst (fst f).

(** The fields no task but the timestamp task writes. *)
Definition kept (d d' : Dumper) : Prop :=
  binds d' = binds d
  /\ current_sequence_path d' = current_sequence_path d
  /\ _current_frame_count d' = _current_frame_count d
  /\ _timestamp_offset d' = _timestamp_offset d.


Definition is_timestamp_future (f : Future) : bool := is_timestamp_task (future_task f).

Section Capture.

Context `{Collaborators}.

(** A worker runs the call; an exception ends the call and is kept in the
    future, it does not reach the other calls. *)
Definition run_future (w : World) (t : Task) : M Future :=
  fun d =>
    let '(r, d', calls) := run_task w t d in
    (Ok (t, r, calls), d', calls).

Fixpoint run_futures (w : World) (ts : list Task) : M (list Future) :=
  match ts with
  | [] => ret []
  | t :: rest =>
      f <- run_future w t ;;
      fs <- run_futures w rest ;;
      ret (f :: fs)
  end.

(** The order in which the pool runs the calls of one frame. *)
Variable schedule : list Task -> list Task.

(** Modelled from the spec: the join of the base class [DatasetDumper],
    "wait for all scheduled tasks of the current frame to finish (or fail)
    before FrameOpen may begin for the next frame".  One capture cycle is
    [create_frame] followed by the calls it submitted, each run to its
    end. *)
Definition capture_frame (w : World) : M (list Future) :=
  create_frame ;;
  d <- get ;;
  run_futures w (schedule (_promises d)).


End Capture.

(** ** Vocabulary of the further properties *)

(** The binds that name a file: timestamps, poses, calibration. *)
Definition is_file_bind (b : Bind) : bool :=
  is_TimestampBind b || is_PoseBind b || is_CalibTrBind b.

(** Every file bind of a registry has a path with an extension. *)
Definition file_binds_have_extension (bs : list Bind) : Prop :=
  Forall (fun b => is_file_bind b = true -> no_extension (data_path b) = false) bs.


(** The bind a call was submitted for (the calibration bind, for the
    calibration call). *)
Definition task_bind (t : Task) : Bind :=
  match t with
  | dump_semantic_lidar_task b | dump_image_task b | dump_timestamp_task b
  | dump_pose_task b => b
  | dump_calib_task bind_calib _ => bind_calib
  end.





(** ** A reference instance of the collaborators

    The theorems below hold for every instance of [Collaborators].  To run
    the definitions on concrete inputs, this instance follows the spec's
    description of the transformer. *)

Module Reference.

Definition dot4 (a b : Vec4) : float :=
  Float.add
    (Float.add (Float.add (Float.mul (c0 a) (c0 b)) (Float.mul (c1 a) (c1 b)))
       (Float.mul (c2 a) (c2 b)))
    (Float.mul (c3 a) (c3 b)).

Definition transpose (m : Mat4) : Mat4 :=
  mat4 (vec4 (c0 (r0 m)) (c0 (r1 m)) (c0 (r2 m)) (c0 (r3 m)))
       (vec4 (c1 (r0 m)) (c1 (r1 m)) (c1 (r2 m)) (c1 (r3 m)))
       (vec4 (c2 (r0 m)) (c2 (r1 m)) (c2 (r2 m)) (c2 (r3 m)))
       (vec4 (c3 (r0 m)) (c3 (r1 m)) (c3 (r2 m)) (c3 (r3 m))).

Definition mul_row (a : Vec4) (bt : Mat4) : Vec4 :=
  vec4 (dot4 a (r0 bt)) (dot4 a (r1 bt)) (dot4 a (r2 bt)) (dot4 a (r3 bt)).

Definition matmul (a b : Mat4) : Mat4 :=
  let bt := transpose b in
  mat4 (mul_row (r0 a) bt) (mul_row (r1 a) bt) (mul_row (r2 a) bt) (mul_row (r3 a) bt).

Definition row (a b c d : Z) : Vec4 :=
  vec4 (Float.lit a) (Float.lit b) (Float.lit c) (Float.lit d).

Definition identity : Mat4 :=
  mat4 (row 1 0 0 0) (row 0 1 0 0) (row 0 0 1 0) (row 0 0 0 1).

(** The axis map of an orientation change: camera axes (x forward, y right,
    z up) to (x right, y down, z forward); handedness flips y. *)
Definition axis_map (o : Orientation) : Mat4 :=
  match o with
  | CARLA_CAM_TO_KITTI_CAM_ORIENTATION =>
      mat4 (row 0 1 0 0) (row 0 0 (-1) 0) (row 1 0 0 0) (row 0 0 0 1)
  | LEFT_HANDED_TO_RIGHT_HANDED_ORIENTATION =>
      mat4 (row 1 0 0 0) (row 0 (-1) 0 0) (row 0 0 1 0) (row 0 0 0 1)
  end.

(** Modelled from the spec: "re-expresses a transform's rotation axes under
    a fixed permutation/sign map between two orientation conventions". *)
Definition conjugate (o : Orientation) (m : Mat4) : Mat4 :=
  matmul (matmul (axis_map o) m) (transpose (axis_map o)).

(** Modelled from the spec: "right-composes [a] into [reference]'s frame by
    matrix multiplication of the two homogeneous matrices". *)
Definition compose (a reference : Mat4) : Mat4 := matmul a reference.

(** A stand-in for [numpy.tan]: eight levels of the continued fraction
    [tan x = x / (1 - x^2 / (3 - x^2 / (5 - ...)))]. *)
Definition tan_fraction (x : float) : float :=
  let x2 := Float.mul x x in
  let level (k : Z) (below : float) := Float.sub (Float.lit k) (Float.div x2 below) in
  Float.div x
    (level 1 (level 3 (level 5 (level 7 (level 9 (level 11 (level 13
       (Float.lit 15)))))))).

(** A set that iterates in the order of first insertion. *)
Definition insertion_order (xs : list Sensor) : list Sensor := remove_dups xs.


Definition collaborators : Collaborators :=
  {| change_orientation := conjugate;
     apply_transform := compose;
     from_system := fun ps => ps;
     np_tan := tan_fraction;
     set_to_list := insertion_order |}.


(** A world in which every sensor stands at the origin at time [t] and is
    a 1280x720 camera with a field of view of 90 degrees. *)
Definition still_world (t : Z) : World :=
  {| data := fun _ =>
       {| timestamp := Float.div (Float.lit t) (Float.lit 10);
          frame := t;
          transform := identity;
          content := PointArray [] |};
     attributes := fun _ =>
       Some {| image_size_x := 1280; image_size_y := 720; fov := Float.lit 90 |} |}.

(** The same world with a lidar sample of the given points. *)
Definition scan_world (t : Z) (rows : list LidarRow) : World :=
  {| data := fun s =>
       {| timestamp := timestamp (data (still_world t) s);
          frame := t;
          transform := identity;
          content := PointArray rows |};
     attributes := attributes (still_world t) |}.

(** The still world with every sensor moved to [(x, y, z)]. *)
Definition moved_world (t x y z : Z) : World :=
  {| data := fun s =>
       {| timestamp := timestamp (data (still_world t) s);
          frame := t;
          transform := mat4 (row 1 0 0 x) (row 0 1 0 y) (row 0 0 1 z) (row 0 0 0 1);
          content := PointArray [] |};
     attributes := attributes (still_world t) |}.

(** The still world in which only the sensor [cam] is a camera. *)
Definition camera_only_world (t : Z) (cam : Sensor) : World :=
  {| data := data (still_world t);
     attributes := fun s => if Nat.eqb s cam then attributes (still_world t) s else None |}.

(** The order in which a single worker runs the calls: as submitted. *)
Definition fifo (ts : list Task) : list Task := ts.

(** A registry of one camera, one lidar, one timestamp file, one pose file
    and the calibration file. *)
Definition rig : Dumper :=
  set_binds
    [CameraBind 0%nat "image_2"; SemanticLidarBind 1%nat "velodyne" "labels";
     TimestampBind 0%nat "times.txt"; PoseBind 0%nat "poses.txt";
     CalibTrBind 1%nat "calib.txt"]
    (new_dumper "seq").

End Reference.

(** * Properties *)

(** ** Sanity checks of the embedded library functions *)

Example splitext_timestamps : Path.splitext "timestamps" = ("timestamps", "").
Proof. reflexivity. Qed.
Example splitext_timestamps_txt : Path.splitext "timestamps.txt" = ("timestamps", ".txt").
Proof. reflexivity. Qed.
Example splitext_hidden : Path.splitext "seq/.hidden" = ("seq/.hidden", "").
Proof. reflexivity. Qed.
Example splitext_dir_dot : Path.splitext "a.b/c" = ("a.b/c", "").
Proof. reflexivity. Qed.
Example join_seq : Path.join "out/00" ["velodyne"; "000001.bin"] = "out/00/velodyne/000001.bin".
Proof. reflexivity. Qed.
Example format_zero : Float.format_e 6 Float.zero = "0.000000e+00".
Proof. vm_compute. reflexivity. Qed.
Example format_1280 : Float.format_e 6 (Float.lit 1280) = "1.280000e+03".
Proof. vm_compute. reflexivity. Qed.
Example format_tenth :
  Float.format_e 12 (Float.div (Float.lit 1) (Float.lit 10)) = "1.000000000000e-01".
Proof. vm_compute. reflexivity. Qed.
Example format_pi : Float.format_e 6 (Float.neg Float.pi) = "-3.141593e+00".
Proof. vm_compute. reflexivity. Qed.
Example frame_name_7 : format_06d 7 = "000007".
Proof. vm_compute. reflexivity. Qed.
Example frame_name_big : format_06d 1234567 = "1234567".
Proof. vm_compute. reflexivity. Qed.
Example mapping_car : mapping_get 14 = PyInt 10.
Proof. vm_compute. reflexivity. Qed.
Example mapping_unlabeled : mapping_get 0 = PyNone.
Proof. vm_compute. reflexivity. Qed.

Example splitext_trailing_dot : Path.splitext "timestamps." = ("timestamps", ".").
Proof. reflexivity. Qed.

Example right_angle_quarter :
  Float.div (Float.mul (Float.lit 90) Float.pi) (Float.lit 360)
  = Float.div Float.pi (Float.lit 4).
Proof. vm_compute. reflexivity. Qed.

(** ** What [os.path.splitext] calls an extension *)

Lemma rfind_from_absent (c : ascii) (s : string) (i last : Z) :
  Path.contains c s = false -> Path.rfind_from c s i last = last.
Proof.
  revert i. induction s as [|a s IH]; intros i; cbn [Path.contains Path.rfind_from].
  - reflexivity.
  - intros Hc. apply orb_false_iff in Hc as [Ha Hs]. rewrite Ha. apply IH, Hs.
Qed.

Lemma rfind_from_lower (c : ascii) (s : string) (i last : Z) :
  -1 <= last -> 0 <= i -> -1 <= Path.rfind_from c s i last.
Proof.
  revert i last. induction s as [|a s IH]; intros i last Hl Hi; cbn [Path.rfind_from].
  - exact Hl.
  - apply IH; [destruct (Ascii.eqb a c); lia | lia].
Qed.

Lemma rfind_from_app (c : ascii) (s1 s2 : string) (i last : Z) :
  Path.rfind_from c (s1 +:+ s2) i last
  = Path.rfind_from c s2 (i + Z.of_nat (String.length s1)) (Path.rfind_from c s1 i last).
Proof.
  revert i last. induction s1 as [|a s1 IH]; intros i last.
  - cbn. rewrite Z.add_0_r. reflexivity.
  - simpl. rewrite IH. f_equal. lia.
Qed.

(** A path without a dot has no extension. *)
Lemma no_dot_no_extension (p : string) :
  Path.contains "." p = false -> no_extension p = true.
Proof.
  intros Hd. unfold no_extension, Path.splitext, Path.rfind.
  rewrite (rfind_from_absent "." p 0 (-1) Hd).
  pose proof (rfind_from_lower "/" p 0 (-1) ltac:(lia) ltac:(lia)) as Hs.
  replace (Path.rfind_from "/" p 0 (-1) <? -1) with false
    by (symmetry; apply Z.ltb_ge; exact Hs).
  reflexivity.
Qed.

Lemma substring_app_drop (s1 s2 : string) (n : nat) :
  String.substring (String.length s1) n (s1 +:+ s2) = String.substring 0 n s2.
Proof.
  induction s1 as [|a s1 IH]; [reflexivity|]. simpl. exact IH.
Qed.

Lemma length_app_string (s1 s2 : string) :
  String.length (s1 +:+ s2) = (String.length s1 + String.length s2)%nat.
Proof. induction s1 as [|a s1 IH]; [reflexivity|]. simpl. rewrite IH. reflexivity. Qed.

Lemma substring_whole (s : string) : String.substring 0 (String.length s) s = s.
Proof. induction s as [|b s IH]; [reflexivity|]. simpl. f_equal. exact IH. Qed.

Lemma substring_prefix (s1 s2 : string) :
  String.substring 0 (String.length s1) (s1 +:+ s2) = s1.
Proof. induction s1 as [|b s IH]; [destruct s2; reflexivity|]. simpl. f_equal. exact IH. Qed.

(** A plain file name [stem.ext] has the extension [.ext]. *)
Lemma name_with_extension (stem ext : string) :
  stem <> "" ->
  Path.contains "." stem = false -> Path.contains "/" stem = false ->
  Path.contains "." ext = false -> Path.contains "/" ext = false ->
  Path.splitext (stem +:+ "." +:+ ext) = (stem, "." +:+ ext).
Proof.
  intros Hne Hds Hss Hde Hse.
  unfold Path.splitext, Path.rfind.
  rewrite !rfind_from_app.
  rewrite (rfind_from_absent "/" stem 0 (-1) Hss), (rfind_from_absent "." stem 0 (-1) Hds).
  cbn [Path.rfind_from String.append].
  change (Ascii.eqb "." "/") with false. change (Ascii.eqb "." ".") with true. cbv iota.
  rewrite (rfind_from_absent "/" _ _ _ Hse), (rfind_from_absent "." _ _ _ Hde).
  destruct stem as [|a stem]; [congruence|].
  cbn [Path.contains] in Hds. apply orb_false_iff in Hds as [Ha _].
  replace (-1 <? 0 + Z.of_nat (String.length (String a stem))) with true
    by (symmetry; apply Z.ltb_lt; lia).
  replace (Z.to_nat (0 + Z.of_nat (String.length (String a stem)) - (-1 + 1)))
    with (S (String.length stem)) by (cbn [String.length]; lia).
  cbn [Path.scan_leading_dots andb].
  replace (String.get (Z.to_nat (-1 + 1)) (String a stem +:+ "." +:+ ext))
    with (Some a) by reflexivity.
  rewrite Ha. unfold Path.slice_to, Path.slice_from.
  replace (Z.to_nat (0 + Z.of_nat (String.length (String a stem))))
    with (String.length (String a stem)) by lia.
  f_equal.
  - apply substring_prefix.
  - rewrite substring_app_drop.
    replace (String.length (String a stem +:+ "." +:+ ext)
             - String.length (String a stem))%nat
      with (String.length ("." +:+ ext)).
    + apply substring_whole.
    + rewrite (length_app_string (String a stem)). lia.
Qed.

(** ** Registration *)

Lemma run_binds_append (b : Bind) (d : Dumper) :
  binds_append b d = (Ok tt, set_binds (binds d ++ [b]) d, []).
Proof. reflexivity. Qed.

(** C7. [bind_timestamp], [bind_pose] and [bind_calib] called with a path
    that has no extension raise the configuration error and leave the
    registry as it was; called with a path that has an extension they raise
    nothing and append the bind to the registry.  ["timestamps"] is a path
    of the first kind, ["timestamps.txt"] of the second. *)
Theorem C7_file_bind_needs_extension (sensor : Sensor) (file_path : string) (d : Dumper) :
  bind_timestamp sensor file_path d
  = (if no_extension file_path
     then (Raise (folder_not_file file_path), d, [])
     else (Ok tt, set_binds (binds d ++ [TimestampBind sensor file_path]) d, []))
  /\ bind_pose sensor file_path d
     = (if no_extension file_path
        then (Raise (folder_not_file file_path), d, [])
        else (Ok tt, set_binds (binds d ++ [PoseBind sensor file_path]) d, []))
  /\ bind_calib sensor file_path d
     = (if no_extension file_path
        then (Raise (folder_not_file file_path), d, [])
        else (Ok tt, set_binds (binds d ++ [CalibTrBind sensor file_path]) d, []))
  /\ no_extension "timestamps" = true
  /\ no_extension "timestamps.txt" = false.
Proof.
  unfold bind_timestamp, bind_pose, bind_calib.
  destruct (no_extension file_path); repeat split; reflexivity.
Qed.

Lemma next_bind_None (is_X : Bind -> bool) (bs : list Bind) :
  next_bind is_X bs = None <-> existsb is_X bs = false.
Proof.
  unfold next_bind. induction bs as [|b bs IH]; simpl.
  - tauto.
  - destruct (is_X b); simpl; [split; discriminate | exact IH].
Qed.

Lemma next_bind_Some (is_X : Bind -> bool) (bs : list Bind) :
  existsb is_X bs = true -> exists b, next_bind is_X bs = Some b /\ is_X b = true.
Proof.
  unfold next_bind. induction bs as [|b bs IH]; simpl; [discriminate|].
  destruct (is_X b) eqn:E; simpl; eauto.
Qed.

Lemma run_setup_calib_file (d : Dumper) :
  _setup_calib_file d
  = match next_bind is_CalibTrBind (binds d), next_bind is_PoseBind (binds d) with
    | Some calib_bind, Some pose_bind =>
        (Ok tt, set_promises (_promises d ++ [dump_calib_task calib_bind pose_bind]) d, [])
    | _, _ => (Raise calib_not_found, d, [])
    end.
Proof.
  unfold _setup_calib_file, bind, get. simpl.
  destruct (next_bind is_CalibTrBind (binds d)), (next_bind is_PoseBind (binds d));
    reflexivity.
Qed.

Lemma setup_calib_file_missing (d : Dumper) :
  existsb is_CalibTrBind (binds d) && existsb is_PoseBind (binds d) = false ->
  _setup_calib_file d = (Raise calib_not_found, d, []).
Proof.
  intros Hm. rewrite run_setup_calib_file.
  apply andb_false_iff in Hm as [Hm|Hm]; apply next_bind_None in Hm; rewrite Hm.
  - reflexivity.
  - destruct (next_bind is_CalibTrBind (binds d)); reflexivity.
Qed.

(** C5 (counterexample).  A second pose bind and a second calibration bind
    are both accepted: after [bind_pose(cam0, "poses.txt")] the call
    [bind_pose(cam1, "poses_b.txt")] returns and the registry holds the two
    pose binds, and likewise for [bind_calib]. *)
Lemma C5_second_bind_accepted :
  bind_pose 1%nat "poses_b.txt" (set_binds [PoseBind 0%nat "poses.txt"] (new_dumper "seq"))
  = (Ok tt,
     set_binds [PoseBind 0%nat "poses.txt"; PoseBind 1%nat "poses_b.txt"] (new_dumper "seq"),
     [])
  /\ bind_calib 3%nat "calib_b.txt"
       (set_binds [CalibTrBind 2%nat "calib.txt"] (new_dumper "seq"))
     = (Ok tt,
        set_binds [CalibTrBind 2%nat "calib.txt"; CalibTrBind 3%nat "calib_b.txt"]
          (new_dumper "seq"),
        []).
Proof. split; reflexivity. Qed.

(** C5 (amended).  The registry keeps every bind it is given: whether
    [bind_pose] or [bind_calib] raises depends on the extension of the path
    alone, never on the binds already registered, and an accepted bind is
    appended.  [_setup_calib_file] takes the first calibration bind and the
    first pose bind of the registry, in registration order, and submits one
    calibration task for them; it raises, submitting nothing, exactly when
    the registry has no calibration bind or no pose bind. *)
Theorem C5_registry_accepts_first_bind_used (sensor : Sensor) (file_path : string)
    (d : Dumper) :
  outcome (bind_pose sensor file_path d)
  = (if no_extension file_path then Raise (folder_not_file file_path) else Ok tt)
  /\ binds (state_of (bind_pose sensor file_path d))
     = (if no_extension file_path then binds d
        else binds d ++ [PoseBind sensor file_path])
  /\ outcome (bind_calib sensor file_path d)
     = (if no_extension file_path then Raise (folder_not_file file_path) else Ok tt)
  /\ binds (state_of (bind_calib sensor file_path d))
     = (if no_extension file_path then binds d
        else binds d ++ [CalibTrBind sensor file_path])
  /\ _setup_calib_file d
     = match List.find is_CalibTrBind (binds d), List.find is_PoseBind (binds d) with
       | Some calib_bind, Some pose_bind =>
           (Ok tt,
            set_promises (_promises d ++ [dump_calib_task calib_bind pose_bind]) d, [])
       | _, _ => (Raise calib_not_found, d, [])
       end
  /\ (outcome (_setup_calib_file d) = Raise calib_not_found
      <-> existsb is_CalibTrBind (binds d) && existsb is_PoseBind (binds d) = false).
Proof.
  unfold bind_pose, bind_calib.
  repeat split; try (destruct (no_extension file_path); reflexivity).
  - apply run_setup_calib_file.
  - rewrite run_setup_calib_file. intros Hr.
    destruct (next_bind is_CalibTrBind (binds d)) eqn:Ec.
    + destruct (next_bind is_PoseBind (binds d)) eqn:Ep; [discriminate|].
      apply next_bind_None in Ep. rewrite Ep. apply andb_false_r.
    + apply next_bind_None in Ec. rewrite Ec. reflexivity.
  - intros Hm. rewrite setup_calib_file_missing by exact Hm. reflexivity.
Qed.

(** ** Opening a frame *)

Lemma run_submit_dumps (bs : list Bind) (d : Dumper) :
  for_each bs submit_dump d
  = (Ok tt, set_promises (_promises d ++ bind_tasks bs) d, []).
Proof.
  revert d. induction bs as [|b bs IH]; intros d.
  - simpl. unfold ret. rewrite app_nil_r. destruct d; reflexivity.
  - simpl for_each. unfold bind at 1.
    destruct b; simpl; rewrite IH; simpl;
      rewrite <- ?app_assoc; destruct d; reflexivity.
Qed.

(** Opening a frame other than the first: the counter advances and one call
    per bind is submitted. *)
Lemma create_frame_later (d : Dumper) :
  _current_frame_count d + 1 <> 1 ->
  create_frame d
  = (Ok tt,
     set_promises (bind_tasks (binds d))
       (set_current_frame_count (_current_frame_count d + 1) d),
     []).
Proof.
  intros Hk. unfold create_frame, bind, modify, get, when. simpl.
  apply Z.eqb_neq in Hk. rewrite Hk. unfold ret.
  rewrite run_submit_dumps. destruct d; reflexivity.
Qed.

(** Opening the first frame with both binds registered: the origins are
    cleared, the calibration call is submitted first, then one call per
    bind. *)
Lemma create_frame_first (d : Dumper) (calib_bind pose_bind : Bind) :
  _current_frame_count d = 0 ->
  next_bind is_CalibTrBind (binds d) = Some calib_bind ->
  next_bind is_PoseBind (binds d) = Some pose_bind ->
  create_frame d
  = (Ok tt,
     set_promises (dump_calib_task calib_bind pose_bind :: bind_tasks (binds d))
       (set_pose_offset None
          (set_timestamp_offset None (set_current_frame_count 1 d))),
     []).
Proof.
  intros Hk Hc Hp. unfold create_frame, bind, modify, get, when. simpl.
  rewrite Hk. simpl. rewrite run_setup_calib_file. simpl.
  rewrite Hc, Hp. rewrite run_submit_dumps. destruct d; reflexivity.
Qed.

(** Opening the first frame with a bind missing. *)
Lemma create_frame_first_missing (d : Dumper) :
  _current_frame_count d = 0 ->
  existsb is_CalibTrBind (binds d) && existsb is_PoseBind (binds d) = false ->
  create_frame d
  = (Raise calib_not_found,
     set_pose_offset None
       (set_timestamp_offset None (set_promises [] (set_current_frame_count 1 d))),
     []).
Proof.
  intros Hk Hm. unfold create_frame, bind, modify, get, when. simpl.
  rewrite Hk. simpl. rewrite setup_calib_file_missing by exact Hm.
  destruct d; reflexivity.
Qed.

(** C6.  When [create_frame] opens frame 1 and the registry has no
    calibration bind or no pose bind, it raises the configuration error; no
    call has been submitted to the pool at that point, and a capture cycle
    ends there without running any task or issuing any I/O call. *)
Theorem C6_missing_bind_raises_before_tasks
    `{Collaborators} (schedule : list Task -> list Task) (w : World) (d : Dumper) :
  _current_frame_count d = 0 ->
  existsb is_CalibTrBind (binds d) && existsb is_PoseBind (binds d) = false ->
  outcome (create_frame d) = Raise calib_not_found
  /\ _promises (state_of (create_frame d)) = []
  /\ calls_of (create_frame d) = []
  /\ outcome (capture_frame schedule w d) = Raise calib_not_found
  /\ calls_of (capture_frame schedule w d) = [].
Proof.
  intros Hk Hm.
  pose proof (create_frame_first_missing d Hk Hm) as E.
  unfold capture_frame, bind. rewrite E. repeat split.
Qed.

Lemma C6_missing_bind_raises_before_tasks_witness :
  outcome (create_frame
             (set_binds [CameraBind 0%nat "image_2"; PoseBind 0%nat "poses.txt"]
                (new_dumper "seq")))
  = Raise calib_not_found
  /\ calls_of (capture_frame (H := Reference.collaborators) Reference.fifo
                 (Reference.still_world 0)
                 (set_binds [CameraBind 0%nat "image_2"; PoseBind 0%nat "poses.txt"]
                    (new_dumper "seq")))
     = [].
Proof.
  pose proof (C6_missing_bind_raises_before_tasks (H := Reference.collaborators)
                Reference.fifo (Reference.still_world 0)
                (set_binds [CameraBind 0%nat "image_2"; PoseBind 0%nat "poses.txt"]
                   (new_dumper "seq"))
                eq_refl eq_refl) as (H1 & _ & _ & _ & H5).
  split; [exact H1 | exact H5].
Defined.

(** ** The folder skeleton of a sequence *)

Lemma run_setup_content (b : Bind) (d : Dumper) :
  setup_content b d
  = (Ok tt, d,
     (if no_extension (data_path b)
      then [os_makedirs (Path.join (current_sequence_path d) [data_path b])]
      else [open_write (Path.join (current_sequence_path d) [data_path b]) "w" ""])
     ++ match b with
        | SemanticLidarBind _ _ labels_path =>
            [os_makedirs (Path.join (current_sequence_path d) [labels_path])]
        | _ => []
        end).
Proof.
  unfold setup_content, bind, get, io, ret.
  destruct (no_extension (data_path b)), b; reflexivity.
Qed.

Lemma run_for_each_setup_content (bs : list Bind) (d : Dumper) :
  for_each bs setup_content d
  = (Ok tt, d, concat (map (fun b => calls_of (setup_content b d)) bs)).
Proof.
  induction bs as [|b bs IH]; [reflexivity|].
  simpl for_each. unfold bind at 1. rewrite run_setup_content, IH.
  simpl. rewrite run_setup_content. reflexivity.
Qed.

(** C9.  [bind_camera] and [bind_semantic_lidar] append their bind for every
    path, raising nothing.  At sequence set-up the calls issued for a bind
    are chosen by the extension of its path alone: [os.makedirs] when there
    is none, else [open(path, 'w')] writing the empty text (followed, for a
    lidar bind, by [os.makedirs] of the labels folder), and
    [_setup_content_folder] issues these calls bind after bind.  So a camera
    bound to ["image_2.png"] gets the empty file ["seq/image_2.png"] and no
    folder. *)
Theorem C9_extension_alone_decides_folder_or_file
    (sensor : Sensor) (data_folder labels_folder : string) (b : Bind) (d : Dumper) :
  bind_camera sensor data_folder d
  = (Ok tt, set_binds (binds d ++ [CameraBind sensor data_folder]) d, [])
  /\ bind_semantic_lidar sensor data_folder labels_folder d
     = (Ok tt,
        set_binds (binds d ++ [SemanticLidarBind sensor data_folder labels_folder]) d, [])
  /\ calls_of (setup_content b d)
     = (if no_extension (data_path b)
        then [os_makedirs (Path.join (current_sequence_path d) [data_path b])]
        else [open_write (Path.join (current_sequence_path d) [data_path b]) "w" ""])
       ++ match b with
          | SemanticLidarBind _ _ labels_path =>
              [os_makedirs (Path.join (current_sequence_path d) [labels_path])]
          | _ => []
          end
  /\ _setup_content_folder d
     = (Ok tt, d, concat (map (fun b => calls_of (setup_content b d)) (binds d)))
  /\ calls_of (_setup_content_folder
                 (state_of (bind_camera sensor "image_2.png" (new_dumper "seq"))))
     = [open_write "seq/image_2.png" "w" ""]
  /\ calls_of (_setup_content_folder
                 (state_of (bind_semantic_lidar sensor "velodyne.bin" "labels"
                              (new_dumper "seq"))))
     = [open_write "seq/velodyne.bin" "w" ""; os_makedirs "seq/labels"].
Proof.
  repeat split.
  - rewrite run_setup_content. reflexivity.
  - unfold _setup_content_folder, bind, get. simpl.
    rewrite run_for_each_setup_content. simpl. rewrite ?app_nil_r. reflexivity.
Qed.

(** ** The intrinsic matrix *)

(** C8.  For a camera of width [w], height [h] and field of view [fov], the
    intrinsic matrix has [w / (2 * tan(fov * pi / 360))] in both focal
    entries of the diagonal, the principal point [(w / 2, h / 2)] in the last
    column, 1 in the corner and 0 elsewhere.  For [(1280, 720, 90)] the focal
    is [1280 / (2 * tan(pi / 4))] and the principal point [(640, 360)]. *)
Theorem C8_intrinsic_matrix `{Collaborators} (width height : Z) (fov wf hf : float) :
  Float.of_int width = Ok wf ->
  Float.of_int height = Ok hf ->
  compute_intrinsic_matrix width height fov
  = Ok [[Float.div wf
           (Float.mul (Float.lit 2)
              (np_tan (Float.div (Float.mul fov Float.pi) (Float.lit 360))));
         Float.lit 0;
         Float.div wf (Float.lit 2)];
        [Float.lit 0;
         Float.div wf
           (Float.mul (Float.lit 2)
              (np_tan (Float.div (Float.mul fov Float.pi) (Float.lit 360))));
         Float.div hf (Float.lit 2)];
        [Float.lit 0; Float.lit 0; Float.lit 1]]
  /\ compute_intrinsic_matrix 1280 720 (Float.lit 90)
     = Ok [[Float.div (Float.lit 1280)
              (Float.mul (Float.lit 2) (np_tan (Float.div Float.pi (Float.lit 4))));
            Float.lit 0;
            Float.lit 640];
           [Float.lit 0;
            Float.div (Float.lit 1280)
              (Float.mul (Float.lit 2) (np_tan (Float.div Float.pi (Float.lit 4))));
            Float.lit 360];
           [Float.lit 0; Float.lit 0; Float.lit 1]].
Proof.
  intros Hw Hh. split.
  - unfold compute_intrinsic_matrix. rewrite Hw, Hh. reflexivity.
  - unfold compute_intrinsic_matrix.
    change (Float.of_int 1280) with (Ok (A := float) (Float.lit 1280)).
    change (Float.of_int 720) with (Ok (A := float) (Float.lit 720)).
    cbv iota beta.
    replace (Float.div (Float.mul (Float.lit 90) Float.pi) (Float.lit 360))
      with (Float.div Float.pi (Float.lit 4)) by (vm_compute; reflexivity).
    replace (Float.div (Float.lit 1280) (Float.lit 2)) with (Float.lit 640)
      by (vm_compute; reflexivity).
    replace (Float.div (Float.lit 720) (Float.lit 2)) with (Float.lit 360)
      by (vm_compute; reflexivity).
    reflexivity.
Qed.

Lemma C8_intrinsic_matrix_witness :
  getitem 0 2 (match compute_intrinsic_matrix (H := Reference.collaborators)
                       1920 1080 (Float.lit 60) with
               | Ok K => K
               | Raise _ => []
               end)
  = Some (Float.lit 960).
Proof.
  destruct (C8_intrinsic_matrix (H := Reference.collaborators) 1920 1080 (Float.lit 60)
              (Float.lit 1920) (Float.lit 1080) eq_refl eq_refl) as [E _].
  rewrite E. vm_compute. reflexivity.
Defined.

(** ** Labels *)

Lemma mapping_get_PyInt (key v : Z) :
  mapping_get key = PyInt v <-> MAPPING_SEG_CARLA_TO_KITTI !! key = Some v.
Proof.
  unfold mapping_get. destruct (MAPPING_SEG_CARLA_TO_KITTI !! key); split; congruence.
Qed.

Lemma mapping_get_PyNone (key : Z) :
  mapping_get key = PyNone <-> MAPPING_SEG_CARLA_TO_KITTI !! key = None.
Proof.
  unfold mapping_get. destruct (MAPPING_SEG_CARLA_TO_KITTI !! key); split; congruence.
Qed.


Lemma objects_to_ints_mapped (segs : list Z) (zs : list Z) :
  objects_to_ints (map mapping_get segs) = Ok zs ->
  Forall2 (fun s z => MAPPING_SEG_CARLA_TO_KITTI !! s = Some z) segs zs.
Proof.
  revert zs. induction segs as [|s segs IH]; intros zs; cbn [objects_to_ints map].
  - intros [= <-]. constructor.
  - destruct (mapping_get s) as [v|] eqn:Es; [|discriminate].
    destruct (objects_to_ints (map mapping_get segs)) as [zs'|] eqn:Er; [|discriminate].
    intros [= <-]. constructor; [by apply mapping_get_PyInt | by apply IH].
Qed.

(** An absent id anywhere in the column makes the conversion raise. *)
Lemma objects_to_ints_absent (segs : list Z) (s : Z) :
  s ∈ segs ->
  MAPPING_SEG_CARLA_TO_KITTI !! s = None ->
  objects_to_ints (map mapping_get segs) = Raise none_to_int.
Proof.
  intros Hin Hs.
  induction Hin as [s segs|s s' segs Hin IH]; cbn [objects_to_ints map].
  - apply mapping_get_PyNone in Hs. rewrite Hs. reflexivity.
  - destruct (mapping_get s'); [|reflexivity]. rewrite (IH Hs). reflexivity.
Qed.

Lemma make_labels_Ok (rows : list LidarRow) (labels : list (list Z)) :
  make_labels rows = Ok labels ->
  exists zs,
    objects_to_ints (map mapping_get (map row_seg rows)) = Ok zs
    /\ labels = column_stack (map to_uint16 zs) (map to_uint16 (map row_oid rows)).
Proof.
  unfold make_labels, np_vectorize.
  destruct (map row_seg rows) as [|first segs] eqn:Eseg; [discriminate|].
  destruct (mapping_get first) as [v|] eqn:Ef.
  - destruct (objects_to_ints (map mapping_get (first :: segs))) as [zs|] eqn:Ez;
      [|discriminate].
    cbn [astype_uint16]. intros [= <-]. eauto.
  - cbn [astype_uint16 objects_to_ints map]. rewrite Ef. discriminate.
Qed.



(** The labels of a sample whose ids are all in the table are computed. *)
Lemma make_labels_total (rows : list LidarRow) :
  rows <> [] ->
  Forall (fun r => is_Some (MAPPING_SEG_CARLA_TO_KITTI !! row_seg r)) rows ->
  exists labels, make_labels rows = Ok labels /\ length labels = length rows.
Proof.
  intros Hne Hall.
  assert (exists zs, objects_to_ints (map mapping_get (map row_seg rows)) = Ok zs
                     /\ length zs = length rows) as (zs & Hz & Hlen).
  { clear Hne.
    induction Hall as [|r rows [v Hv] _ (zs & Hz & Hlen)]; cbn [objects_to_ints map].
    - exists []. split; reflexivity.
    - apply mapping_get_PyInt in Hv. rewrite Hv, Hz.
      exists (v :: zs). cbn [length]. rewrite Hlen. split; reflexivity. }
  unfold make_labels, np_vectorize.
  destruct rows as [|r rows]; [congruence|].
  cbn [map] in *.
  destruct (mapping_get (row_seg r)) as [v|] eqn:Ev.
  - rewrite Hz. cbn [astype_uint16].
    eexists. split; [reflexivity|].
    unfold column_stack. rewrite length_zip_with, !length_map.
    cbn [length] in *. rewrite !length_map. lia.
  - cbn [objects_to_ints] in Hz. discriminate.
Qed.

(** C4.  When the lidar sample of a frame holds a semantic id that the table
    lacks, the export task of that frame raises: the labels are not computed,
    no file is written (neither labels nor points), and no class id stands in
    for the absent one. *)
Theorem C4_absent_class_fails_label_export `{Collaborators}
    (w : World) (sensor : Sensor) (path labels_path : string) (d : Dumper)
    (rows : list LidarRow) (r : LidarRow) :
  content (data w sensor) = PointArray rows ->
  r ∈ rows ->
  MAPPING_SEG_CARLA_TO_KITTI !! row_seg r = None ->
  make_labels rows = Raise none_to_int
  /\ _dump_semantic_lidar w (SemanticLidarBind sensor path labels_path) d
     = (Raise none_to_int, d, []).
Proof.
  intros Hc Hin Hr.
  assert (make_labels rows = Raise none_to_int) as Hl.
  { assert (objects_to_ints (map mapping_get (map row_seg rows)) = Raise none_to_int)
      as Ho by (eapply objects_to_ints_absent;
                [apply list_elem_of_In, in_map, list_elem_of_In, Hin | exact Hr]).
    unfold make_labels, np_vectorize.
    destruct (map row_seg rows) as [|first segs] eqn:Eseg.
    - destruct rows; [inversion Hin | discriminate].
    - destruct (mapping_get first) as [v|] eqn:Ef.
      + rewrite Ho. reflexivity.
      + cbn [astype_uint16 objects_to_ints map]. rewrite Ef. reflexivity. }
  split; [exact Hl|].
  unfold _dump_semantic_lidar, bind, get, ret, lift. cbn [actor].
  rewrite Hc, Hl. reflexivity.
Qed.

Lemma C4_absent_class_fails_label_export_witness :
  _dump_semantic_lidar (H := Reference.collaborators)
    (Reference.scan_world 0
       [lidar_row Float.zero Float.zero Float.zero 14 7;
        lidar_row Float.zero Float.zero Float.zero 0 8])
    (SemanticLidarBind 1%nat "velodyne" "labels") Reference.rig
  = (Raise none_to_int, Reference.rig, []).
Proof.
  refine (proj2 (C4_absent_class_fails_label_export (H := Reference.collaborators)
                   (Reference.scan_world 0
                      [lidar_row Float.zero Float.zero Float.zero 14 7;
                       lidar_row Float.zero Float.zero Float.zero 0 8])
                   1%nat "velodyne" "labels" Reference.rig
                   [lidar_row Float.zero Float.zero Float.zero 14 7;
                    lidar_row Float.zero Float.zero Float.zero 0 8]
                   (lidar_row Float.zero Float.zero Float.zero 0 8)
                   eq_refl _ _)).
  - apply list_elem_of_In. simpl. right. left. reflexivity.
  - vm_compute. reflexivity.
Defined.

(** ** Running the tasks of a frame *)

Section TaskEffects.

Context `{Collaborators}.
Variable w : World.


Lemma kept_trans (d1 d2 d3 : Dumper) : kept d1 d2 -> kept d2 d3 -> kept d1 d3.
Proof.
  intros (A1 & A2 & A3 & A4) (B1 & B2 & B3 & B4).
  repeat split; congruence.
Qed.

Lemma run_dump_timestamp (b : Bind) (d : Dumper) :
  _dump_timestamp w b d
  = (Ok tt,
     match _timestamp_offset d with
     | None => set_timestamp_offset (Some (timestamp (data w (actor b)))) d
     | Some _ => d
     end,
     [open_write (Path.join (current_sequence_path d) [data_path b]) "a"
        (Float.format_e 6
           (Float.sub (timestamp (data w (actor b)))
              (default (timestamp (data w (actor b))) (_timestamp_offset d)))
         +:+ newline)]).
Proof.
  unfold _dump_timestamp, bind, get, modify, ret, io.
  destruct (_timestamp_offset d); reflexivity.
Qed.







End TaskEffects.

(** ** Timestamps *)




Section Frames.

Context `{Collaborators}.





End Frames.

Section Sequences.

Context `{Collaborators}.
Variable schedule : list Task -> list Task.
Hypothesis schedule_permutes : forall ts, Permutation (schedule ts) ts.






End Sequences.



(** ** The calibration file *)


Section Calibration.

Context `{Collaborators}.
Variable w : World.


Lemma top_rows_values (m : Mat4) : length (concat (top_rows m)) = 12%nat.
Proof. reflexivity. Qed.



End Calibration.

Lemma bind_tasks_no_calib (bs : list Bind) :
  List.filter is_calib_task (bind_tasks bs) = [].
Proof.
  induction bs as [|b bs IH]; [reflexivity|].
  destruct b; cbn [bind_tasks omap list_omap List.filter is_calib_task];
    fold (bind_tasks bs); exact IH.
Qed.





(** ** Poses *)

Section Poses.

Context `{Collaborators}.
Variable w : World.



End Poses.

(** With the composition the spec words as "matrix multiplication of the two
    homogeneous matrices", a first frame taken at [(1, 2, 3)] does not write
    the identity: the translation of the written line is twice the
    orientation-changed one. *)
Example reference_first_pose_line :
  calls_of (_dump_pose (H := Reference.collaborators) (Reference.moved_world 0 1 2 3)
              (PoseBind 0%nat "poses.txt") Reference.rig)
  = [open_write "seq/poses.txt" "a"
       ("1.000000e+00 0.000000e+00 0.000000e+00 4.000000e+00 0.000000e+00 1.000000e+00 0.000000e+00 -6.000000e+00 0.000000e+00 0.000000e+00 1.000000e+00 2.000000e+00"
        +:+ newline)].
Proof. vm_compute. reflexivity. Qed.


(** * Further properties *)

(** ** The remap table and the labels of a scan *)

(** The table is defined on the class ids 1 to 30 and on no other id; the
    id 0 of an unlabeled point is not in it. *)
Lemma mapping_domain (k : Z) :
  is_Some (MAPPING_SEG_CARLA_TO_KITTI !! k) <-> 1 <= k <= 30.
Proof.
  split.
  - intros [v Hv]. unfold MAPPING_SEG_CARLA_TO_KITTI in Hv.
    apply elem_of_list_to_map_2 in Hv.
    repeat (apply elem_of_cons in Hv as [Hv|Hv]; [injection Hv as -> ->; lia|]).
    inversion Hv.
  - intros Hk.
    assert (k = 1 \/ k = 2 \/ k = 3 \/ k = 4 \/ k = 5 \/ k = 6 \/ k = 7 \/ k = 8 \/ k = 9 \/ k = 10 \/ k = 11 \/ k = 12 \/ k = 13 \/ k = 14 \/ k = 15 \/ k = 16 \/ k = 17 \/ k = 18 \/ k = 19 \/ k = 20 \/ k = 21 \/ k = 22 \/ k = 23 \/ k = 24 \/ k = 25 \/ k = 26 \/ k = 27 \/ k = 28 \/ k = 29 \/ k = 30) as Hcases by lia.
    repeat (destruct Hcases as [->|Hcases]; [vm_compute; eauto|]).
    subst k. vm_compute. eauto.
Qed.

(** X1.  The labels of a scan are computed exactly when the scan has at
    least one point and every semantic id of the scan is one of the class
    ids 1 to 30; an empty scan and a scan with an unlabeled point (id 0)
    both make the label computation raise. *)
Theorem make_labels_succeeds_iff (rows : list LidarRow) :
  (exists labels, make_labels rows = Ok labels)
  <-> rows <> [] /\ Forall (fun r => 1 <= row_seg r <= 30) rows.
Proof.
  split.
  - intros (labels & Hl). split.
    + intros ->. discriminate.
    + apply make_labels_Ok in Hl as (zs & Hz & _).
      apply objects_to_ints_mapped in Hz.
      clear labels. revert zs Hz. induction rows as [|r rows IH]; intros zs Hz.
      * constructor.
      * inversion Hz as [|s z segs zs' Hv Hrest]; subst. constructor.
        -- apply mapping_domain. eauto.
        -- eapply IH. exact Hrest.
  - intros (Hne & Hall).
    destruct (make_labels_total rows Hne) as (labels & Hl & _).
    + eapply Forall_impl; [exact Hall|]. intros r Hr. apply mapping_domain, Hr.
    + eauto.
Qed.

(** X2.  A scan without points cannot be exported: [np.vectorize] refuses an
    input of size 0, so the lidar task raises [ValueError] and writes neither
    the point file nor the label file. *)
Theorem empty_scan_is_not_exported `{Collaborators}
    (w : World) (sensor : Sensor) (path labels_path : string) (d : Dumper) :
  content (data w sensor) = PointArray [] ->
  _dump_semantic_lidar w (SemanticLidarBind sensor path labels_path) d
  = (Raise (ValueError "cannot call `vectorize` on size 0 inputs unless `otypes` is set"),
     d, []).
Proof.
  intros Hc. unfold _dump_semantic_lidar, bind, get, ret, lift. cbn [actor].
  rewrite Hc. reflexivity.
Qed.

Lemma empty_scan_is_not_exported_witness :
  _dump_semantic_lidar (H := Reference.collaborators) (Reference.still_world 0)
    (SemanticLidarBind 1%nat "velodyne" "labels") Reference.rig
  = (Raise (ValueError "cannot call `vectorize` on size 0 inputs unless `otypes` is set"),
     Reference.rig, []).
Proof.
  apply (empty_scan_is_not_exported (H := Reference.collaborators)
           (Reference.still_world 0) 1%nat "velodyne" "labels" Reference.rig).
  reflexivity.
Defined.

Lemma to_uint16_range (z : Z) : 0 <= to_uint16 z < 2 ^ 16.
Proof. unfold to_uint16. apply Z.mod_pos_bound. lia. Qed.

Lemma column_stack_rows (a b : list Z) :
  Forall (fun z => 0 <= z < 2 ^ 16) a ->
  Forall (fun z => 0 <= z < 2 ^ 16) b ->
  Forall (fun l => exists x y, l = [x; y] /\ 0 <= x < 2 ^ 16 /\ 0 <= y < 2 ^ 16)
    (column_stack a b).
Proof.
  intros Ha. revert b. induction Ha as [|x a Hx _ IH]; intros b Hb.
  - constructor.
  - destruct Hb as [|y b Hy Hb]; [constructor|].
    unfold column_stack. cbn [zip_with]. constructor; [eauto|].
    apply IH. exact Hb.
Qed.

Lemma map_to_uint16_range (zs : list Z) :
  Forall (fun z => 0 <= z < 2 ^ 16) (map to_uint16 zs).
Proof.
  induction zs as [|z zs IH]; cbn [map]; constructor;
    [apply to_uint16_range | exact IH].
Qed.

(** X3.  For a scan with at least one point whose ids are all class ids 1 to
    30, the lidar task of a frame ends without raising and issues two writes,
    in this order: the point rows to [<points folder>/<frame>.bin] and the
    label rows to [<labels folder>/<frame>.label], where [<frame>] is the
    frame counter in six digits.  There is one label row per point, every
    label row is a pair of values that fit [uint16], every point row has
    four values, and the dumper's fields are left as they were. *)
Theorem lidar_export_writes_points_then_labels `{Collaborators}
    (w : World) (sensor : Sensor) (path labels_path : string) (d : Dumper)
    (rows : list LidarRow) :
  content (data w sensor) = PointArray rows ->
  rows <> [] ->
  Forall (fun r => 1 <= row_seg r <= 30) rows ->
  exists labels,
    _dump_semantic_lidar w (SemanticLidarBind sensor path labels_path) d
    = (Ok tt, d,
       [tofile_float32
          (Path.join (current_sequence_path d)
             [path; format_06d (_current_frame_count d) +:+ ".bin"])
          (make_points rows);
        tofile_uint16
          (Path.join (current_sequence_path d)
             [labels_path; format_06d (_current_frame_count d) +:+ ".label"])
          labels])
    /\ length labels = length rows
    /\ Forall (fun l => exists x y, l = [x; y] /\ 0 <= x < 2 ^ 16 /\ 0 <= y < 2 ^ 16)
         labels
    /\ Forall (fun row => length row = 4%nat) (make_points rows).
Proof.
  intros Hc Hne Hall.
  destruct (make_labels_total rows Hne) as (labels & Hl & Hlen).
  { eapply Forall_impl; [exact Hall|]. intros r Hr. apply mapping_domain, Hr. }
  exists labels. split; [|split; [exact Hlen|split]].
  - unfold _dump_semantic_lidar, bind, get, ret, lift, io, current_frame_name.
    cbn [actor data_path]. rewrite Hc, Hl. reflexivity.
  - apply make_labels_Ok in Hl as (zs & _ & ->).
    apply column_stack_rows; apply map_to_uint16_range.
  - unfold make_points. apply Forall_forall. intros row Hrow.
    apply list_elem_of_In, in_map_iff in Hrow as (p & <- & _). reflexivity.
Qed.

Lemma lidar_export_writes_points_then_labels_witness :
  exists labels,
    _dump_semantic_lidar (H := Reference.collaborators)
      (Reference.scan_world 0
         [lidar_row Float.zero Float.zero Float.zero 14 7;
          lidar_row Float.zero Float.zero Float.zero 1 8])
      (SemanticLidarBind 1%nat "velodyne" "labels")
      (set_current_frame_count 3 Reference.rig)
    = (Ok tt, set_current_frame_count 3 Reference.rig,
       [tofile_float32 "seq/velodyne/000003.bin"
          (make_points (H := Reference.collaborators)
             [lidar_row Float.zero Float.zero Float.zero 14 7;
              lidar_row Float.zero Float.zero Float.zero 1 8]);
        tofile_uint16 "seq/labels/000003.label" labels])
    /\ length labels = 2%nat.
Proof.
  destruct (lidar_export_writes_points_then_labels (H := Reference.collaborators)
              (Reference.scan_world 0
                 [lidar_row Float.zero Float.zero Float.zero 14 7;
                  lidar_row Float.zero Float.zero Float.zero 1 8])
              1%nat "velodyne" "labels" (set_current_frame_count 3 Reference.rig)
              [lidar_row Float.zero Float.zero Float.zero 14 7;
               lidar_row Float.zero Float.zero Float.zero 1 8]
              eq_refl)
    as (labels & E & Hlen & _).
  - discriminate.
  - repeat constructor; cbn [row_seg]; lia.
  - exists labels. split; [exact E | exact Hlen].
Defined.

(** ** The registry *)

Lemma file_binds_have_extension_app (bs : list Bind) (b : Bind) :
  file_binds_have_extension bs ->
  (is_file_bind b = true -> no_extension (data_path b) = false) ->
  file_binds_have_extension (bs ++ [b]).
Proof.
  intros Hbs Hb. apply Forall_app. split; [exact Hbs|]. constructor; [exact Hb|constructor].
Qed.

(** X4.  The five registration methods keep this invariant of the registry:
    every timestamp, pose and calibration bind has a path with an extension.
    It holds of the empty registry, and it holds after a call of any of the
    methods, whether the call returns or raises. *)
Theorem registration_keeps_file_binds_with_extension
    (sensor : Sensor) (data_folder labels_folder file_path : string) (d : Dumper) :
  file_binds_have_extension (binds d) ->
  file_binds_have_extension (binds (state_of (bind_camera sensor data_folder d)))
  /\ file_binds_have_extension
       (binds (state_of (bind_semantic_lidar sensor data_folder labels_folder d)))
  /\ file_binds_have_extension (binds (state_of (bind_timestamp sensor file_path d)))
  /\ file_binds_have_extension (binds (state_of (bind_pose sensor file_path d)))
  /\ file_binds_have_extension (binds (state_of (bind_calib sensor file_path d)))
  /\ file_binds_have_extension (binds (new_dumper file_path)).
Proof.
  intros Hd. unfold bind_camera, bind_semantic_lidar, bind_timestamp, bind_pose, bind_calib.
  repeat split.
  - apply file_binds_have_extension_app; [exact Hd | discriminate].
  - apply file_binds_have_extension_app; [exact Hd | discriminate].
  - destruct (no_extension file_path) eqn:E; [exact Hd|].
    apply file_binds_have_extension_app; [exact Hd | intros _; exact E].
  - destruct (no_extension file_path) eqn:E; [exact Hd|].
    apply file_binds_have_extension_app; [exact Hd | intros _; exact E].
  - destruct (no_extension file_path) eqn:E; [exact Hd|].
    apply file_binds_have_extension_app; [exact Hd | intros _; exact E].
  - constructor.
Qed.

Lemma registration_keeps_file_binds_with_extension_witness :
  file_binds_have_extension
    (binds (state_of (bind_pose 0%nat "poses.txt" Reference.rig)))
  /\ file_binds_have_extension
       (binds (state_of (bind_pose 0%nat "poses" Reference.rig))).
Proof.
  assert (file_binds_have_extension (binds Reference.rig)) as Hrig.
  { unfold file_binds_have_extension, Reference.rig. cbn [binds set_binds].
    repeat (constructor;
            [intros Hf; first [discriminate Hf | vm_compute; reflexivity]|]).
    constructor. }
  split.
  - exact (proj1 (proj2 (proj2 (proj2
            (registration_keeps_file_binds_with_extension
               0%nat "image_2" "labels" "poses.txt" Reference.rig Hrig))))).
  - exact (proj1 (proj2 (proj2 (proj2
            (registration_keeps_file_binds_with_extension
               0%nat "image_2" "labels" "poses" Reference.rig Hrig))))).
Defined.



(** X6.  The three file-bind methods raise for every path in which no dot
    occurs, and accept every plain file name [stem.ext] (a non-empty stem and
    an extension, neither with a dot or a slash in it), appending the bind. *)
Theorem file_bind_paths (sensor : Sensor) (path stem ext : string) (d : Dumper) :
  Path.contains "." path = false ->
  stem <> "" ->
  Path.contains "." stem = false -> Path.contains "/" stem = false ->
  Path.contains "." ext = false -> Path.contains "/" ext = false ->
  (outcome (bind_timestamp sensor path d) = Raise (folder_not_file path)
   /\ outcome (bind_pose sensor path d) = Raise (folder_not_file path)
   /\ outcome (bind_calib sensor path d) = Raise (folder_not_file path))
  /\ (bind_timestamp sensor (stem +:+ "." +:+ ext) d
      = (Ok tt, set_binds (binds d ++ [TimestampBind sensor (stem +:+ "." +:+ ext)]) d, [])
      /\ bind_pose sensor (stem +:+ "." +:+ ext) d
         = (Ok tt, set_binds (binds d ++ [PoseBind sensor (stem +:+ "." +:+ ext)]) d, [])
      /\ bind_calib sensor (stem +:+ "." +:+ ext) d
         = (Ok tt, set_binds (binds d ++ [CalibTrBind sensor (stem +:+ "." +:+ ext)]) d,
            [])).
Proof.
  intros Hp Hne Hds Hss Hde Hse.
  assert (no_extension (stem +:+ "." +:+ ext) = false) as Hext.
  { unfold no_extension. rewrite (name_with_extension stem ext Hne Hds Hss Hde Hse).
    reflexivity. }
  unfold bind_timestamp, bind_pose, bind_calib.
  rewrite (no_dot_no_extension path Hp), Hext. repeat split.
Qed.

Lemma file_bind_paths_witness :
  outcome (bind_pose 0%nat "out/poses" (new_dumper "seq"))
  = Raise (folder_not_file "out/poses")
  /\ bind_calib 1%nat "calib.txt" (new_dumper "seq")
     = (Ok tt, set_binds [CalibTrBind 1%nat "calib.txt"] (new_dumper "seq"), []).
Proof.
  destruct (file_bind_paths 0%nat "out/poses" "calib" "txt" (new_dumper "seq"))
    as ((_ & Hp & _) & _); try reflexivity; try discriminate.
  destruct (file_bind_paths 1%nat "out/poses" "calib" "txt" (new_dumper "seq"))
    as (_ & (_ & _ & Hc)); try reflexivity; try discriminate.
  split; [exact Hp | exact Hc].
Defined.

(** ** Opening a frame, further *)

Lemma bind_tasks_binds (bs : list Bind) :
  map task_bind (bind_tasks bs) = List.filter (fun b => negb (is_CalibTrBind b)) bs.
Proof.
  induction bs as [|b bs IH]; [reflexivity|].
  destruct b; cbn [bind_tasks omap list_omap List.filter is_CalibTrBind negb map task_bind];
    fold (bind_tasks bs); rewrite ?IH; reflexivity.
Qed.

Lemma bind_tasks_not_calib (bs : list Bind) :
  List.filter (fun t => negb (is_calib_task t)) (bind_tasks bs) = bind_tasks bs.
Proof.
  induction bs as [|b bs IH]; [reflexivity|].
  destruct b; cbn [bind_tasks omap list_omap List.filter is_calib_task negb];
    fold (bind_tasks bs); rewrite ?IH; reflexivity.
Qed.

(** X7.  Whenever [create_frame] returns, the frame counter has advanced by
    one, the registry and the sequence path are as before, and the calls it
    has submitted, the calibration call aside, are one per camera, lidar,
    timestamp and pose bind, in registration order; what [_promises] held
    before the call is dropped. *)
Theorem create_frame_submits_one_task_per_bind (d : Dumper) :
  outcome (create_frame d) = Ok tt ->
  map task_bind
    (List.filter (fun t => negb (is_calib_task t)) (_promises (state_of (create_frame d))))
  = List.filter (fun b => negb (is_CalibTrBind b)) (binds d)
  /\ _current_frame_count (state_of (create_frame d)) = _current_frame_count d + 1
  /\ binds (state_of (create_frame d)) = binds d
  /\ current_sequence_path (state_of (create_frame d)) = current_sequence_path d
  /\ calls_of (create_frame d) = [].
Proof.
  destruct (_current_frame_count d =? 0) eqn:Ek.
  - apply Z.eqb_eq in Ek.
    destruct (existsb is_CalibTrBind (binds d) && existsb is_PoseBind (binds d)) eqn:Em.
    + apply andb_true_iff in Em as [Hc Hp].
      apply next_bind_Some in Hc as (bc & Hc & _).
      apply next_bind_Some in Hp as (bp & Hp & _).
      rewrite (create_frame_first d bc bp Ek Hc Hp). intros _.
      unfold state_of, calls_of.
      cbn [fst snd _promises set_promises List.filter is_calib_task negb].
      rewrite bind_tasks_not_calib, bind_tasks_binds, Ek. repeat split.
    + rewrite (create_frame_first_missing d Ek Em). discriminate.
  - apply Z.eqb_neq in Ek. rewrite create_frame_later by lia. intros _.
    unfold state_of, calls_of. cbn [fst snd _promises set_promises].
    rewrite bind_tasks_not_calib, bind_tasks_binds. repeat split.
Qed.

Lemma create_frame_submits_one_task_per_bind_witness :
  map task_bind
    (List.filter (fun t => negb (is_calib_task t))
       (_promises (state_of (create_frame Reference.rig))))
  = [CameraBind 0%nat "image_2"; SemanticLidarBind 1%nat "velodyne" "labels";
     TimestampBind 0%nat "times.txt"; PoseBind 0%nat "poses.txt"].
Proof.
  rewrite (proj1 (create_frame_submits_one_task_per_bind Reference.rig eq_refl)).
  reflexivity.
Defined.

(** X8.  Only the opening of frame 1 can fail and only it touches the
    origins: for a dumper whose counter is not 0, [create_frame] returns
    whatever the registry holds (also without calibration or pose bind),
    submits no calibration call, and leaves the time origin and the pose
    origin as they are. *)
Theorem create_frame_after_first_keeps_origins (d : Dumper) :
  _current_frame_count d <> 0 ->
  outcome (create_frame d) = Ok tt
  /\ _promises (state_of (create_frame d)) = bind_tasks (binds d)
  /\ List.filter is_calib_task (_promises (state_of (create_frame d))) = []
  /\ _timestamp_offset (state_of (create_frame d)) = _timestamp_offset d
  /\ _pose_offset (state_of (create_frame d)) = _pose_offset d
  /\ _pose_offset_coordinate (state_of (create_frame d)) = _pose_offset_coordinate d.
Proof.
  intros Hk. rewrite create_frame_later by lia.
  unfold state_of, outcome. cbn [fst snd _promises set_promises].
  repeat split. apply bind_tasks_no_calib.
Qed.

Lemma create_frame_after_first_keeps_origins_witness :
  outcome (create_frame (set_current_frame_count 1 (new_dumper "seq"))) = Ok tt.
Proof.
  apply (create_frame_after_first_keeps_origins
           (set_current_frame_count 1 (new_dumper "seq"))).
  discriminate.
Defined.

(** ** The frames of a sequence *)

Section FrameFields.

Context `{Collaborators}.




End FrameFields.

Section SequenceFields.

Context `{Collaborators}.
Variable schedule : list Task -> list Task.
Hypothesis schedule_permutes : forall ts, Permutation (schedule ts) ts.



End SequenceFields.




Section SequenceTheorems.

Context `{Collaborators}.
Variable schedule : list Task -> list Task.
Hypothesis schedule_permutes : forall ts, Permutation (schedule ts) ts.



End SequenceTheorems.



(** ** Poses along a sequence *)



Section PoseFrames.

Context `{Collaborators}.




End PoseFrames.

Section PoseSequences.

Context `{Collaborators}.
Variable schedule : list Task -> list Task.
Hypothesis schedule_permutes : forall ts, Permutation (schedule ts) ts.




End PoseSequences.


(** ** The calibration task, further *)

Section CalibrationFailures.

Context `{Collaborators}.
Variable w : World.

(** The loop over the cameras stops at the first camera without a
    projection; the lines of the cameras before it are written. *)
Lemma run_dump_calib_cameras_fail (path : string) (m : Mat4)
    (good : list Sensor) (Ps : list ndarray) (bad : Sensor) (rest : list Sensor)
    (e : Exception) (idx : nat) (d : Dumper) :
  Forall2 (fun cam P => camera_projection w m cam = Ok P) good Ps ->
  camera_projection w m bad = Raise e ->
  for_enumerate idx (good ++ bad :: rest) (dump_calib_camera w path m) d
  = (Raise e, d,
     imap (fun i P => open_write path "a" (calib_line ("P" +:+ pretty (idx + i)%nat) P))
       Ps).
Proof.
  intros HP Hbad. revert idx. induction HP as [|cam P cams Ps HP _ IH]; intros idx.
  - cbn [app for_enumerate]. unfold bind at 1.
    unfold dump_calib_camera at 1. unfold bind, lift. rewrite Hbad. reflexivity.
  - cbn [app for_enumerate]. unfold bind at 1.
    unfold dump_calib_camera at 1. unfold bind, lift, io. rewrite HP.
    rewrite (IH (S idx)). cbn [imap]. rewrite Nat.add_0_r.
    f_equal. f_equal. apply imap_ext. intros i P' _. cbn [compose].
    rewrite Nat.add_succ_r. reflexivity.
Qed.

(** X12.  The calibration task has no rollback: when a camera of the list
    has no projection matrix (its attributes are missing, or its size is
    beyond the floats), the task raises that camera's error after it has
    appended the [P] lines of the cameras before it, and writes neither a
    further [P] line nor the [Tr] line. *)
Theorem calib_stops_at_first_failing_camera
    (d : Dumper) (bind_calib bind_pose : Bind)
    (good : list Sensor) (Ps : list ndarray) (bad : Sensor) (rest : list Sensor)
    (e : Exception) :
  calib_cams (binds d) (actor bind_pose) = good ++ bad :: rest ->
  Forall2
    (fun cam P =>
       camera_projection w
         (change_orientation CARLA_CAM_TO_KITTI_CAM_ORIENTATION
            (transform (data w (actor bind_pose))))
         cam
       = Ok P)
    good Ps ->
  camera_projection w
    (change_orientation CARLA_CAM_TO_KITTI_CAM_ORIENTATION
       (transform (data w (actor bind_pose))))
    bad
  = Raise e ->
  _dump_calib w bind_calib bind_pose d
  = (Raise e, d,
     imap
       (fun i P =>
          open_write (Path.join (current_sequence_path d) [data_path bind_calib]) "a"
            ((("P" +:+ pretty i) +:+ ":")
             +:+ (String.concat " " (map (Float.format_e 12) (concat P)) +:+ newline)))
       Ps).
Proof.
  intros Hcams HP Hbad.
  unfold _dump_calib. unfold bind at 1. unfold get. unfold bind at 1.
  rewrite Hcams.
  rewrite (run_dump_calib_cameras_fail _ _ good Ps bad rest e 0 d HP Hbad).
  reflexivity.
Qed.

(** X13.  The pose bind has to watch a camera: when the sensor of the pose
    bind has no camera attributes, the calibration task raises [KeyError] at
    its first camera and writes nothing at all. *)
Theorem calib_needs_a_camera_as_pose_sensor
    (d : Dumper) (bind_calib bind_pose : Bind) :
  attributes w (actor bind_pose) = None ->
  _dump_calib w bind_calib bind_pose d = (Raise (KeyError "image_size_x"), d, []).
Proof.
  intros Ha.
  unfold _dump_calib. unfold bind at 1. unfold get. unfold bind at 1.
  unfold calib_cams.
  match goal with
  | |- context [for_enumerate 0 (_ :: ?others) (dump_calib_camera w ?path ?m) d] =>
      pose proof (run_dump_calib_cameras_fail path m [] [] (actor bind_pose) others
                    (KeyError "image_size_x") 0 d
                    ltac:(constructor)) as E
  end.
  cbn [app] in E. rewrite E; [reflexivity|].
  unfold camera_projection. rewrite Ha. reflexivity.
Qed.

End CalibrationFailures.

(** X14.  When the set of the other cameras behaves as a set (it holds the
    sensors put into it, each once), the calibration file has one [P] line
    per camera sensor: the list of cameras has no sensor twice, also when a
    sensor is bound to two image folders or is the pose sensor as well, and
    it holds the pose sensor and the sensors of the camera binds, no others. *)
Theorem calib_cams_are_distinct `{Collaborators} (bs : list Bind) (cam_0 : Sensor) :
  (forall xs, NoDup (set_to_list xs)) ->
  (forall xs x, In x (set_to_list xs) <-> In x xs) ->
  NoDup (calib_cams bs cam_0)
  /\ hd_error (calib_cams bs cam_0) = Some cam_0
  /\ forall cam,
       In cam (calib_cams bs cam_0)
       <-> cam = cam_0 \/ exists b, In b bs /\ is_CameraBind b = true /\ actor b = cam.
Proof.
  intros Hnodup Hset. unfold calib_cams. split; [|split; [reflexivity|]].
  - apply NoDup_cons. split; [|apply Hnodup].
    intros Hin. apply list_elem_of_In, Hset, in_map_iff in Hin as (b & Hb & Hbin).
    apply filter_In in Hbin as [_ Hf]. apply andb_true_iff in Hf as [_ Hf].
    rewrite Hb, Nat.eqb_refl in Hf. discriminate.
  - intros cam. split.
    + intros [<- | Hin]; [left; reflexivity|].
      apply Hset, in_map_iff in Hin as (b & Hb & Hbin).
      apply filter_In in Hbin as [Hbin Hf]. apply andb_true_iff in Hf as [Hf _].
      right. exists b. repeat split; assumption.
    + intros [-> | (b & Hbin & Hcam & Hb)]; [left; reflexivity|].
      destruct (Nat.eqb cam cam_0) eqn:E.
      * apply Nat.eqb_eq in E. left. symmetry. exact E.
      * right. apply Hset, in_map_iff. exists b. split; [exact Hb|].
        apply filter_In. split; [exact Hbin|]. rewrite Hcam, Hb, E. reflexivity.
Qed.

Lemma calib_stops_at_first_failing_camera_witness :
  _dump_calib (H := Reference.collaborators) (Reference.camera_only_world 0 0%nat)
    (CalibTrBind 1%nat "calib.txt") (PoseBind 0%nat "poses.txt")
    (set_binds
       [CameraBind 0%nat "image_2"; CameraBind 2%nat "image_3";
        PoseBind 0%nat "poses.txt"; CalibTrBind 1%nat "calib.txt"]
       (new_dumper "seq"))
  = (Raise (KeyError "image_size_x"),
     set_binds
       [CameraBind 0%nat "image_2"; CameraBind 2%nat "image_3";
        PoseBind 0%nat "poses.txt"; CalibTrBind 1%nat "calib.txt"]
       (new_dumper "seq"),
     [open_write "seq/calib.txt" "a"
        ("P0:6.400000000000e+02 0.000000000000e+00 6.400000000000e+02 0.000000000000e+00 0.000000000000e+00 6.400000000000e+02 3.600000000000e+02 0.000000000000e+00 0.000000000000e+00 0.000000000000e+00 1.000000000000e+00 0.000000000000e+00"
         +:+ newline)]).
Proof.
  rewrite (calib_stops_at_first_failing_camera (H := Reference.collaborators)
             (Reference.camera_only_world 0 0%nat)
             (set_binds
                [CameraBind 0%nat "image_2"; CameraBind 2%nat "image_3";
                 PoseBind 0%nat "poses.txt"; CalibTrBind 1%nat "calib.txt"]
                (new_dumper "seq"))
             (CalibTrBind 1%nat "calib.txt") (PoseBind 0%nat "poses.txt")
             [0%nat]
             [match camera_projection (H := Reference.collaborators)
                      (Reference.camera_only_world 0 0%nat)
                      (Reference.conjugate CARLA_CAM_TO_KITTI_CAM_ORIENTATION
                         Reference.identity)
                      0%nat with
              | Ok P => P
              | Raise _ => []
              end]
             2%nat [] (KeyError "image_size_x")).
  - vm_compute. reflexivity.
  - vm_compute. reflexivity.
  - constructor; [vm_compute; reflexivity | constructor].
  - vm_compute. reflexivity.
Defined.

Lemma calib_needs_a_camera_as_pose_sensor_witness :
  _dump_calib (H := Reference.collaborators) (Reference.camera_only_world 0 5%nat)
    (CalibTrBind 1%nat "calib.txt") (PoseBind 0%nat "poses.txt") Reference.rig
  = (Raise (KeyError "image_size_x"), Reference.rig, []).
Proof.
  apply (calib_needs_a_camera_as_pose_sensor (H := Reference.collaborators)
           (Reference.camera_only_world 0 5%nat) Reference.rig
           (CalibTrBind 1%nat "calib.txt") (PoseBind 0%nat "poses.txt")).
  reflexivity.
Defined.

Lemma calib_cams_are_distinct_witness :
  NoDup
    (calib_cams (H := Reference.collaborators)
       [CameraBind 0%nat "image_0"; CameraBind 2%nat "image_2";
        CameraBind 2%nat "image_2b"; PoseBind 0%nat "poses.txt"]
       0%nat).
Proof.
  apply (calib_cams_are_distinct (H := Reference.collaborators)
           [CameraBind 0%nat "image_0"; CameraBind 2%nat "image_2";
            CameraBind 2%nat "image_2b"; PoseBind 0%nat "poses.txt"]
           0%nat).
  - intros xs. apply NoDup_remove_dups.
  - intros xs x. cbn [set_to_list Reference.collaborators].
    unfold Reference.insertion_order.
    rewrite <- !list_elem_of_In. apply elem_of_remove_dups.
Defined.

(** ** Frame names *)

Lemma pretty_N_char_nonzero (x : N) :
  (0 < x < 10)%N -> pretty_N_char x <> "0"%char.
Proof.
  intros Hx.
  assert (x = 1 \/ x = 2 \/ x = 3 \/ x = 4 \/ x = 5 \/ x = 6
          \/ x = 7 \/ x = 8 \/ x = 9)%N as Hc by lia.
  repeat (destruct Hc as [->|Hc]; [discriminate|]). subst x. discriminate.
Qed.

(** The decimal form of a positive number starts with a digit other than 0. *)
Lemma pretty_N_go_head (x : N) (s : string) :
  (0 < x)%N ->
  exists c rest, pretty_N_go x s = String c rest /\ c <> "0"%char.
Proof.
  revert s. induction (N.lt_wf_0 x) as [x _ IH]; intros s Hx.
  rewrite pretty_N_go_step by exact Hx.
  destruct (N.eq_0_gt_0_cases (x `div` 10)%N) as [Hq|Hq].
  - rewrite Hq, pretty_N_go_0. eexists _, _. split; [reflexivity|].
    apply pretty_N_char_nonzero.
    assert (x < 10)%N by (apply N.div_small_iff in Hq; lia).
    rewrite N.mod_small by assumption. lia.
  - apply IH; [apply N.div_lt; lia | exact Hq].
Qed.

Lemma pretty_Z_head (z : Z) :
  0 < z -> exists c rest, pretty z = String c rest /\ c <> "0"%char.
Proof.
  destruct z as [|p|p]; try lia. intros _.
  unfold pretty, pretty_Z, pretty, pretty_positive, pretty, pretty_N.
  destruct (decide (N.pos p = 0%N)) as [E|_]; [discriminate|].
  apply pretty_N_go_head. lia.
Qed.

Lemma zeros_cancel (k : nat) (s s' : string) :
  zeros k +:+ s = zeros k +:+ s' -> s = s'.
Proof.
  induction k as [|k IH]; simpl; [tauto|]. intros [= E]. apply IH, E.
Qed.

Lemma zeros_add (j k : nat) (s : string) :
  zeros (j + k) +:+ s = zeros j +:+ (zeros k +:+ s).
Proof.
  induction j as [|j IH]; [reflexivity|]. exact (f_equal (String "0") IH).
Qed.

Lemma length_zeros (k : nat) : String.length (zeros k) = k.
Proof. induction k as [|k IH]; [reflexivity|]. simpl. rewrite IH. reflexivity. Qed.

(** The number that gets more padding cannot print the same: where the other
    has its leading digit, it still has a [0]. *)
Lemma zfill_short (w : nat) (a b : Z) :
  0 <= a -> 0 <= b ->
  (w - String.length (pretty a) < w - String.length (pretty b))%nat ->
  zfill w (pretty a) <> zfill w (pretty b).
Proof.
  intros Ha Hb Hlt. unfold zfill.
  replace (w - String.length (pretty b))%nat
    with ((w - String.length (pretty a))
          + S (w - String.length (pretty b) - (w - String.length (pretty a)) - 1))%nat
    by lia.
  rewrite zeros_add. intros E. apply zeros_cancel in E. simpl in E.
  assert (a = 0 \/ 0 < a) as [->|Hpos] by lia.
  - change (pretty 0) with "0" in E. injection E as E.
    assert (b = 0 \/ 0 < b) as [->|Hbpos] by lia.
    + change (pretty 0) with "0" in E.
      destruct (zeros _) in E; discriminate.
    + destruct (pretty_Z_head b Hbpos) as (c & rest & Eb & _). rewrite Eb in E.
      destruct (zeros _) in E; discriminate.
  - destruct (pretty_Z_head a Hpos) as (c & rest & Ea & Hc). rewrite Ea in E.
    injection E as E _. congruence.
Qed.

Lemma zfill_pretty_inj (w : nat) (a b : Z) :
  0 <= a -> 0 <= b -> zfill w (pretty a) = zfill w (pretty b) -> a = b.
Proof.
  intros Ha Hb E.
  destruct (Nat.lt_trichotomy (w - String.length (pretty a))
              (w - String.length (pretty b))) as [Hlt|[Heq|Hgt]].
  - exfalso. exact (zfill_short w a b Ha Hb Hlt E).
  - unfold zfill in E. rewrite Heq in E. apply zeros_cancel in E.
    apply (inj pretty). exact E.
  - exfalso. symmetry in E. exact (zfill_short w b a Hb Ha Hgt E).
Qed.

(** X15.  Two frame counters that are not negative give the same frame name
    only when they are equal, also beyond 999999 where the name grows past six
    characters; a frame name is never shorter than six characters. *)
Theorem frame_names_are_distinct (d d' : Dumper) :
  0 <= _current_frame_count d ->
  0 <= _current_frame_count d' ->
  (current_frame_name d = current_frame_name d' ->
   _current_frame_count d = _current_frame_count d')
  /\ (6 <= String.length (current_frame_name d))%nat.
Proof.
  intros Hd Hd'. unfold current_frame_name, format_06d.
  replace (_current_frame_count d <? 0) with false by (symmetry; apply Z.ltb_ge; lia).
  replace (_current_frame_count d' <? 0) with false by (symmetry; apply Z.ltb_ge; lia).
  split.
  - apply zfill_pretty_inj; assumption.
  - unfold zfill. rewrite length_app_string, length_zeros. lia.
Qed.

Lemma frame_names_are_distinct_witness :
  (current_frame_name (set_current_frame_count 7 (new_dumper "seq"))
   = current_frame_name (set_current_frame_count 1234567 (new_dumper "seq")) ->
   _current_frame_count (set_current_frame_count 7 (new_dumper "seq"))
   = _current_frame_count (set_current_frame_count 1234567 (new_dumper "seq")))
  /\ (6 <= String.length (current_frame_name (set_current_frame_count 7 (new_dumper "seq"))))%nat.
Proof.
  apply (frame_names_are_distinct (set_current_frame_count 7 (new_dumper "seq"))
           (set_current_frame_count 1234567 (new_dumper "seq"))).
  - vm_compute. discriminate.
  - vm_compute. discriminate.
Defined.

(** ** A degenerate field of view *)

(** X16.  The intrinsic matrix has no guard on the field of view: when the
    tangent of the half angle is a zero, as for [fov = 0], and the width is a
    positive float, both focal entries are an infinity of the zero's sign and
    nothing is raised. *)
Theorem zero_fov_gives_infinite_focal `{Collaborators}
  (width height : Z) (fov hf : float) (m : positive) (e : Z) (s : bool) :
  Float.of_int width = Ok (S754_finite false m e) ->
  Float.of_int height = Ok hf ->
  np_tan (Float.div (Float.mul fov Float.pi) (Float.lit 360)) = S754_zero s ->
  exists K,
    compute_intrinsic_matrix width height fov = Ok K
    /\ getitem 0 0 K = Some (S754_infinity s)
    /\ getitem 1 1 K = Some (S754_infinity s).
Proof.
  intros Hw Hh Htan. unfold compute_intrinsic_matrix.
  rewrite Hw, Hh, Htan. eexists. split; [reflexivity|].
  destruct s; split; reflexivity.
Qed.

Lemma zero_fov_gives_infinite_focal_witness :
  exists K,
    compute_intrinsic_matrix (H := Reference.collaborators) 1280 720 Float.zero = Ok K
    /\ getitem 0 0 K = Some (S754_infinity false)
    /\ getitem 1 1 K = Some (S754_infinity false).
Proof.
  apply (zero_fov_gives_infinite_focal (H := Reference.collaborators)
           1280 720 Float.zero (Float.lit 720) 5629499534213120 (-42) false).
  - vm_compute. reflexivity.
  - vm_compute. reflexivity.
  - vm_compute. reflexivity.
Defined.

(** ** Absolute bind paths *)

Lemma join_absolute (root p : string) :
  Path.startswith_sep p = true -> Path.join root [p] = p.
Proof. intros Hp. unfold Path.join, Path.join_step. simpl. rewrite Hp. reflexivity. Qed.

(** X17.  A bind path that starts with [/] is not placed under the sequence
    folder: [os.path.join] drops the sequence path, so the set-up of the
    sequence creates or truncates the bound path itself and the timestamp
    export appends to it, whatever the sequence. *)
Theorem absolute_bind_path_leaves_sequence_folder (w : World) (b : Bind) (d : Dumper) :
  Path.startswith_sep (data_path b) = true ->
  is_TimestampBind b = true ->
  calls_of (setup_content b d)
  = [if no_extension (data_path b)
     then os_makedirs (data_path b)
     else open_write (data_path b) "w" ""]
  /\ exists line, calls_of (_dump_timestamp w b d) = [open_write (data_path b) "a" line].
Proof.
  intros Habs Hb. split.
  - rewrite run_setup_content. cbn [calls_of snd].
    rewrite (join_absolute _ _ Habs).
    destruct b; try discriminate Hb.
    destruct (no_extension _); reflexivity.
  - rewrite run_dump_timestamp. cbn [calls_of snd].
    rewrite (join_absolute _ _ Habs). eexists. reflexivity.
Qed.

Lemma absolute_bind_path_leaves_sequence_folder_witness :
  calls_of (setup_content (TimestampBind 0%nat "/tmp/times.txt") (new_dumper "out/00"))
  = [open_write "/tmp/times.txt" "w" ""]
  /\ exists line,
       calls_of (_dump_timestamp (Reference.still_world 0) (TimestampBind 0%nat "/tmp/times.txt")
                   (new_dumper "out/00"))
       = [open_write "/tmp/times.txt" "a" line].
Proof.
  apply (absolute_bind_path_leaves_sequence_folder (Reference.still_world 0)
           (TimestampBind 0%nat "/tmp/times.txt") (new_dumper "out/00"));
    reflexivity.
Defined.
